(** * CanGuard-AI: the tiered behavioural authentication engine

    A shallow embedding of [AI-Models/tier1.py], of the [Tier3Authenticator]
    class of [AI-Models/tier3.py] and of [AI-Models/auth_orchestrator.py],
    with the properties of the escalation engine proved about it.

    Conventions of the embedding.
    - Python floats and numpy arrays are read as real numbers and lists of
      real numbers: rounding is not modelled.  Comparisons are decided with
      [decide], through the [Decision] instances below.
    - numpy functions are defined by their mathematical meaning in [np];
      element-wise operations are stated on arrays of one shape (numpy
      raises on others), which is the hypothesis [well_shaped] of the
      theorems that need it.
    - Python dicts are finite maps ([gmap]) from string keys; objects that
      the code mutates in place (a profile, the location dict, the history
      deque) are threaded through the functions: a function returns the new
      state of every object it may have written to.
    - The learned models (graph network, drift tracker, similarity engines,
      the fitted scaler) are fields of the objects that load them, as in the
      source, and are arbitrary functions here. *)

From stdpp Require Import base decidable option list gmap strings.
From Stdlib Require Import Reals Lra Lia.

Open Scope R_scope.

(** ** Deciding comparisons of reals *)

#[export] Instance R_eq_dec : EqDecision R := Req_dec_T.
#[export] Instance Rlt_decision (x y : R) : Decision (x < y) := Rlt_dec x y.
#[export] Instance Rgt_decision (x y : R) : Decision (x > y) := Rgt_dec x y.
#[export] Instance Rle_decision (x y : R) : Decision (x <= y) := Rle_dec x y.
#[export] Instance Rge_decision (x y : R) : Decision (x >= y) := Rge_dec x y.

(** ** Python values held in the result dicts *)

Inductive pyval : Type :=
| PyStr (s : string)
| PyFloat (r : R)
| PyList (l : list string).

(** [sub in s] on strings. *)
Definition str_in (sub s : string) : bool :=
  match String.index 0 sub s with Some _ => true | None => false end.

(** [d.get(k, default)] read as a float. *)
Definition get_float (d : gmap string pyval) (k : string) (default : R) : R :=
  match d !! k with
  | Some (PyFloat r) => r
  | _ => default
  end.

(** [d[k]] read as a string (the decision labels). *)
Definition get_str (d : gmap string pyval) (k : string) : string :=
  match d !! k with
  | Some (PyStr s) => s
  | _ => ""%string
  end.

(** ** The numpy functions the code calls *)

Module np.

Abbreviation ndarray := (list R).

Definition sub (a b : ndarray) : ndarray := zip_with Rminus a b.
Definition add (a b : ndarray) : ndarray := zip_with Rplus a b.
Definition div (a b : ndarray) : ndarray := zip_with Rdiv a b.
(** array and scalar *)
Definition adds (a : ndarray) (c : R) : ndarray := (fun x => x + c) <$> a.
Definition scale (c : R) (a : ndarray) : ndarray := (fun x => c * x) <$> a.
Definition abs (a : ndarray) : ndarray := Rabs <$> a.
Definition square (a : ndarray) : ndarray := (fun x => x * x) <$> a.
Definition maximum (a : ndarray) (c : R) : ndarray := (fun x => Rmax x c) <$> a.

Definition sum (a : ndarray) : R := foldr Rplus 0 a.
Definition mean (a : ndarray) : R := sum a / INR (length a).
Definition count_nonzero (a : ndarray) : nat := length (filter (fun x => x <> 0) a).
Definition linalg_norm (a : ndarray) : R := sqrt (sum (square a)).

(** [a[i]] *)
Definition item (a : ndarray) (i : nat) : R := default 0 (a !! i).

(** [np.mean(rows, axis=0)] and [np.std(rows, axis=0)] of a batch of rows. *)
Definition zeros (n : nat) : ndarray := replicate n 0.
Definition sum_axis0 (rows : list ndarray) : ndarray :=
  foldr add (zeros (length (default [] (head rows)))) rows.
Definition mean_axis0 (rows : list ndarray) : ndarray :=
  (fun s => s / INR (length rows)) <$> sum_axis0 rows.
Definition std_axis0 (rows : list ndarray) : ndarray :=
  let m := mean_axis0 rows in
  sqrt <$> mean_axis0 ((fun r => square (sub r m)) <$> rows).

Definition radians (x : R) : R := x * (PI / 180).

Definition arctan2 (y x : R) : R :=
  if decide (0 < x) then atan (y / x)
  else if decide (x < 0) then
    (if decide (0 <= y) then atan (y / x) + PI else atan (y / x) - PI)
  else if decide (0 < y) then PI / 2
  else if decide (y < 0) then - (PI / 2)
  else 0.

End np.

(** ** Tier 1: [tier1.py] *)

(** The location dict of a request: four coordinate pairs, and the optional
    key [is_traveling] that only the orchestrator reads. *)
Record loc_data : Type := mk_loc {
  last_login : R * R;
  current_session : R * R;
  prev_30s : R * R;
  latest_30s : R * R;
  is_traveling : option bool
}.

Definition set_last_login (l : loc_data) (c : R * R) : loc_data :=
  mk_loc c (current_session l) (prev_30s l) (latest_30s l) (is_traveling l).

Module Tier1.

Record Tier1Authenticator : Type := mk {
  age : Z;
  alpha_mean : R;
  alpha_std : R;
  D_ref : np.ndarray;      (* None before enrolment: the empty array here *)
  D_std : np.ndarray;
  is_enrolled : bool;
  idle_count : nat;
  idle_threshold : nat
}.

(** [Tier1Authenticator(age=age)] *)
Definition init (a : Z) : Tier1Authenticator :=
  mk a 0.05 0.02 [] [] false 0 3.

Definition _haversine (lat1 lon1 lat2 lon2 : R) : R :=
  let R0 := 6371 in
  let dlat := np.radians (lat2 - lat1) in
  let dlon := np.radians (lon2 - lon1) in
  let a := sin (dlat / 2) ^ 2
           + cos (np.radians lat1) * cos (np.radians lat2) * sin (dlon / 2) ^ 2 in
  2 * np.arctan2 (sqrt a) (sqrt (1 - a)) * R0.

Definition enroll (self : Tier1Authenticator) (enrollment_vectors : list np.ndarray)
  : Tier1Authenticator :=
  let min_samples := 5%nat in
  if decide (length enrollment_vectors < min_samples)%nat then self
  else
    mk (age self) (alpha_mean self) (alpha_std self)
       (np.mean_axis0 enrollment_vectors)
       (np.maximum (np.std_axis0 enrollment_vectors) 1e-2)
       true (idle_count self) (idle_threshold self).

(** [np.abs((v - self.D_ref) / (self.D_std + 1e-8))], lines 42 and 59. *)
Definition z_scores_of (self : Tier1Authenticator) (v : np.ndarray) : np.ndarray :=
  np.abs (np.div (np.sub v (D_ref self)) (np.adds (D_std self) 1e-8)).

Definition _compute_anomaly_score (self : Tier1Authenticator) (v : np.ndarray)
  : option R * option np.ndarray :=
  if decide (np.count_nonzero v < 4)%nat then (None, None)
  else
    let z_scores := z_scores_of self v in
    let base_score := np.mean z_scores in
    let base_score :=
      if decide (age self >= 60)%Z then base_score * 1.15 else base_score in
    (Some base_score, Some z_scores).

(** Line 51: the distance from the last login to the current session. *)
Definition dist_login_of (loc : loc_data) : R :=
  _haversine (last_login loc).1 (last_login loc).2
             (current_session loc).1 (current_session loc).2.

(** Line 55: the speed between the two samples taken 30 s apart. *)
Definition speed_kmh_of (loc : loc_data) : R :=
  _haversine (prev_30s loc).1 (prev_30s loc).2
             (latest_30s loc).1 (latest_30s loc).2 / (30 / 3600).

Definition _dynamic_rule_checks (self : Tier1Authenticator) (v : np.ndarray)
    (loc : loc_data) : (list string * R) * loc_data :=
  let flags := [] in
  let dist_login := dist_login_of loc in
  let flags :=
    if decide (dist_login > 10) then flags ++ ["Unusual login distance (>10km)"%string]
    else flags in
  let loc := set_last_login loc (current_session loc) in
  let speed_kmh := speed_kmh_of loc in
  let flags :=
    if decide (speed_kmh > 120) then flags ++ ["Abnormal session speed"%string]
    else flags in
  let z_scores := z_scores_of self v in
  let flags :=
    if decide (np.item v 0 > 0 /\ np.item z_scores 0 > 3.0)
    then flags ++ ["Suspicious accuracy deviation"%string] else flags in
  let flags :=
    if decide (np.item v 1 > 0 /\ np.item z_scores 1 > 3.0)
    then flags ++ ["Suspicious flight time deviation"%string] else flags in
  let flags :=
    if decide (np.item v 5 > 0 /\ np.item z_scores 5 > 3.0)
    then flags ++ ["Suspicious error rate deviation"%string] else flags in
  ((flags, speed_kmh), loc).

Definition set_profile (self : Tier1Authenticator) (ref std : np.ndarray)
  : Tier1Authenticator :=
  mk (age self) (alpha_mean self) (alpha_std self) ref std
     (is_enrolled self) (idle_count self) (idle_threshold self).

Definition set_idle_count (self : Tier1Authenticator) (n : nat) : Tier1Authenticator :=
  mk (age self) (alpha_mean self) (alpha_std self) (D_ref self) (D_std self)
     (is_enrolled self) n (idle_threshold self).

Definition _update_profile (self : Tier1Authenticator) (v : np.ndarray)
  : Tier1Authenticator :=
  match (_compute_anomaly_score self v).1 with
  | None => self
  | Some score =>
    if decide (score >= 1.5 \/ (np.count_nonzero v < 6)%nat) then self
    else
      let D_ref' :=
        np.add (np.scale (alpha_mean self) v)
               (np.scale (1 - alpha_mean self) (D_ref self)) in
      let new_std := np.abs (np.sub v D_ref') in
      let D_std' :=
        np.add (np.scale (alpha_std self) new_std)
               (np.scale (1 - alpha_std self) (D_std self)) in
      set_profile self D_ref' D_std'
  end.

Definition T_PASS : R := 0.8.
Definition T_ESC_T2 : R := 2.0.

Definition result (decision : string) (flags : list string) : gmap string pyval :=
  <["decision" := PyStr decision]> (<["flags" := PyList flags]> ∅).

(** Returns the result dict, the authenticator and the location dict as the
    call leaves them. *)
Definition authenticate (self : Tier1Authenticator) (v : np.ndarray) (loc : loc_data)
  : gmap string pyval * Tier1Authenticator * loc_data :=
  if negb (is_enrolled self) then
    (<["decision" := PyStr "ERROR: User is not enrolled."]> ∅, self, loc)
  else
    let an_score := (_compute_anomaly_score self v).1 in
    let '((flags, speed), loc) := _dynamic_rule_checks self v loc in
    match an_score with
    | None =>
      let self := set_idle_count self (idle_count self + 1) in
      (result "SKIP INTERVAL (low activity)" flags, self, loc)
    | Some an_score =>
      let self := set_idle_count self 0 in
      if decide (an_score < T_PASS /\ flags = []) then
        (result "PASS" flags, _update_profile self v, loc)
      else if decide (an_score >= T_ESC_T2 \/ (1 < length flags)%nat) then
        (result "ESCALATE TO T3 (High Anomaly)" flags, self, loc)
      else
        (result "ESCALATE TO T2 (Medium Anomaly)" flags, self, loc)
    end.

End Tier1.

(** ** Tier 3: the [Tier3Authenticator] class of [tier3.py] *)

(** [collections.deque(maxlen=20)]: the newest 20 entries are kept. *)
Module deque.

Definition maxlen : nat := 20.
Definition trim (l : list np.ndarray) : list np.ndarray := drop (length l - maxlen) l.
(** [deque(l, maxlen=20)] *)
Definition make (l : list np.ndarray) : list np.ndarray := trim l.
Definition append (d : list np.ndarray) (x : np.ndarray) : list np.ndarray :=
  trim (d ++ [x]).

End deque.

Module Tier3.

Record Tier3Authenticator : Type := mk {
  (** [sigmoid(gnn_model(graph))[idx]]: the graph is fixed when the object
      is built *)
  gnn_model : nat -> R;
  user_id_to_idx : gmap string nat;
  (** the pair [(mu, log_var)] predicted from a history sequence *)
  drift_tracker : list np.ndarray -> np.ndarray * np.ndarray;
  similarity_engine : np.ndarray -> np.ndarray -> R;
  user_history : gmap string (list np.ndarray)
}.

Definition set_user_history (self : Tier3Authenticator)
    (h : gmap string (list np.ndarray)) : Tier3Authenticator :=
  mk (gnn_model self) (user_id_to_idx self) (drift_tracker self)
     (similarity_engine self) h.

Definition enroll_user_history (self : Tier3Authenticator) (user_id : string)
    (historical_vectors : list np.ndarray) : Tier3Authenticator :=
  set_user_history self (<[user_id := deque.make historical_vectors]> (user_history self)).

Definition _get_gnn_risk (self : Tier3Authenticator) (user_id : string) : R :=
  match user_id_to_idx self !! user_id with
  | None => 0.1
  | Some user_idx => gnn_model self user_idx
  end.

(** [0.5 * (log_var + (v_test - mu)**2 / exp(log_var))], element-wise. *)
Definition nll (v_test mu log_var : np.ndarray) : np.ndarray :=
  np.scale 0.5
    (np.add log_var (np.div (np.square (np.sub v_test mu)) (exp <$> log_var))).

(** Lines 573-581 of [authenticate]: the drift signal. *)
Definition drift_anomaly_of (self : Tier3Authenticator) (user_id : string)
    (v_test : np.ndarray) : R :=
  match user_history self !! user_id with
  | Some history =>
    if decide (history <> [] /\ (5 < length history)%nat) then
      let '(mu, log_var) := drift_tracker self history in
      Rmin (np.mean (nll v_test mu log_var) / 5.0) 1.0
    else 0.1
  | None => 0.1
  end.

Definition w_gnn : R := 0.5.
Definition w_drift : R := 0.2.
Definition w_similarity : R := 0.3.

(** Lines 590-596 of [authenticate]: the fusion and its thresholds. *)
Definition fuse (gnn_risk drift_anomaly similarity_risk : R) : R :=
  gnn_risk * w_gnn + drift_anomaly * w_drift + similarity_risk * w_similarity.

Definition decide_final (final_score : R) : string :=
  if decide (final_score > 0.6) then "BLOCK - HIGH RISK"
  else if decide (final_score > 0.35) then "MANUAL REVIEW"
  else "PASS (T3 Verified)".

Definition authenticate (self : Tier3Authenticator) (user_id : string)
    (v_test v_ref : np.ndarray) : gmap string pyval * Tier3Authenticator :=
  let gnn_risk := _get_gnn_risk self user_id in
  let drift_anomaly := drift_anomaly_of self user_id v_test in
  let sim_score := similarity_engine self v_ref v_test in
  let similarity_risk := 1.0 - sim_score in
  let final_score := fuse gnn_risk drift_anomaly similarity_risk in
  let decision := decide_final final_score in
  let self :=
    match user_history self !! user_id with
    | Some h => set_user_history self (<[user_id := deque.append h v_test]> (user_history self))
    | None => self
    end in
  (<["decision" := PyStr decision]> (<["final_score" := PyFloat final_score]> ∅), self).

End Tier3.

(** ** The orchestrator: [auth_orchestrator.py] *)

Module Orchestrator.

Record request_data : Type := mk_request {
  user_id : string;
  age : Z;
  behavioral_vector : np.ndarray;
  location_info : loc_data
}.

Record enrollment_data : Type := mk_enrollment {
  t1_samples : list np.ndarray;
  t3_history : list np.ndarray
}.

Record UnifiedAuthenticator : Type := mk {
  (** [user_profiles[id]['t1']] *)
  user_profiles : gmap string Tier1.Tier1Authenticator;
  (** [scaler.transform] of the fitted scaler *)
  scaler : np.ndarray -> np.ndarray;
  t2_model : np.ndarray -> np.ndarray -> np.ndarray -> R;
  t3 : Tier3.Tier3Authenticator
}.

Definition enroll_user (self : UnifiedAuthenticator) (uid : string) (a : Z)
    (data : enrollment_data) : UnifiedAuthenticator :=
  match user_profiles self !! uid with
  | Some _ => self
  | None =>
    let t1_authenticator := Tier1.enroll (Tier1.init a) (t1_samples data) in
    let t3' := Tier3.enroll_user_history (t3 self) uid (t3_history data) in
    mk (<[uid := t1_authenticator]> (user_profiles self)) (scaler self) (t2_model self) t3'
  end.

Definition float_of_bool (b : bool) : R := if b then 1 else 0.

Definition _create_context_vector (v_ref v_test : np.ndarray) (a : Z) (t1_score : R)
    (location_info : loc_data) : np.ndarray :=
  let is_traveling := default false (is_traveling location_info) in
  let distance :=
    np.linalg_norm (np.sub v_ref v_test) / (np.linalg_norm v_ref + 1e-8) in
  [distance; IZR a / 100.0; t1_score; float_of_bool is_traveling; 0.0].

Definition set_profile (self : UnifiedAuthenticator) (uid : string)
    (p : Tier1.Tier1Authenticator) : UnifiedAuthenticator :=
  mk (<[uid := p]> (user_profiles self)) (scaler self) (t2_model self) (t3 self).

Definition set_t3 (self : UnifiedAuthenticator) (t : Tier3.Tier3Authenticator)
  : UnifiedAuthenticator :=
  mk (user_profiles self) (scaler self) (t2_model self) t.

(** Line 87: the context vector of an escalation to Tier 2. *)
Definition t2_context (v_ref v_test : np.ndarray) (a : Z)
    (t1_result : gmap string pyval) (location_info : loc_data) : np.ndarray :=
  _create_context_vector v_ref v_test a (get_float t1_result "score" 1.5) location_info.

(** Lines 103-105: the Tier 3 call and the response built from its result. *)
Definition run_t3 (self : UnifiedAuthenticator) (uid : string)
    (v_test v_ref : np.ndarray) : gmap string pyval * UnifiedAuthenticator :=
  let '(final_t3, t3') := Tier3.authenticate (t3 self) uid v_test v_ref in
  (final_t3 ∪ {["tier" := PyStr "T3"]}, set_t3 self t3').

(** Lines 65-72: a user without a profile is enrolled with the incoming
    sample, replicated. *)
Definition ensure_enrolled (self : UnifiedAuthenticator) (req : request_data)
  : UnifiedAuthenticator :=
  match user_profiles self !! user_id req with
  | Some _ => self
  | None =>
    enroll_user self (user_id req) (age req)
      (mk_enrollment (replicate 5 (behavioral_vector req))
                     (replicate 15 (behavioral_vector req)))
  end.

(** Lines 86-100: Tier 2; [inl] is the score of a PASS, [inr] the decision
    label that the Tier 3 test reads. *)
Definition run_t2 (self : UnifiedAuthenticator) (v_ref v_test : np.ndarray) (a : Z)
    (t1_result : gmap string pyval) (location_info : loc_data) (decision : string)
  : R + string :=
  if str_in "ESCALATE TO T2" decision then
    let context_vec := t2_context v_ref v_test a t1_result location_info in
    let t2_score := t2_model self (scaler self v_ref) (scaler self v_test) context_vec in
    if decide (t2_score >= 0.8) then inl t2_score
    else inr "ESCALATE TO T3"%string
  else inr decision.

(** Returns the response, the orchestrator and the request's location dict as
    the call leaves them. *)
Definition authenticate_session (self : UnifiedAuthenticator) (req : request_data)
  : gmap string pyval * UnifiedAuthenticator * loc_data :=
  let uid := user_id req in
  let a := age req in
  let v_test := behavioral_vector req in
  let location_info := location_info req in
  let self := ensure_enrolled self req in
  match user_profiles self !! uid with
  | None => (∅, self, location_info)   (* KeyError: not reached, see [enroll_user] *)
  | Some user_t1 =>
    let v_ref := Tier1.D_ref user_t1 in
    let '(t1_result, user_t1', location_info) :=
      Tier1.authenticate user_t1 v_test location_info in
    let self := set_profile self uid user_t1' in
    let decision := get_str t1_result "decision" in
    if str_in "PASS" decision || str_in "SKIP" decision then
      (<["tier" := PyStr "T1"]> (<["decision" := PyStr decision]> ∅), self, location_info)
    else
      match run_t2 self v_ref v_test a t1_result location_info decision with
      | inl t2_score =>
        (<["tier" := PyStr "T2"]> (<["decision" := PyStr "PASS"]>
           (<["score" := PyFloat t2_score]> ∅)), self, location_info)
      | inr decision =>
        if str_in "ESCALATE TO T3" decision then
          let '(resp, self) := run_t3 self uid v_test v_ref in
          (resp, self, location_info)
        else
          (<["tier" := PyStr "System"]> (<["decision" := PyStr "UNKNOWN_STATE"]> ∅),
           self, location_info)
      end
  end.

End Orchestrator.

(** ** Shapes *)

(** The sample and the two arrays of the profile have one length, long
    enough for the features the rule checks index (0, 1 and 5). *)
Definition well_shaped (p : Tier1.Tier1Authenticator) (v : np.ndarray) : Prop :=
  length (Tier1.D_ref p) = length v /\ length (Tier1.D_std p) = length v
  /\ (6 <= length v)%nat.

(** Every entry of the array is zero. *)
Definition all_zero (a : np.ndarray) : Prop := Forall (fun x => x = 0) a.

(** The profile that enrolment builds from five copies of one sample [v]:
    reference [v], spread at the floor (see [enroll_replicate5]). *)
Definition bootstrap_profile (a : Z) (v : np.ndarray) : Tier1.Tier1Authenticator :=
  Tier1.mk a 0.05 0.02 v (replicate (length v) 1e-2) true 0 3.

(** ** Inputs of the examples *)

Definition ones : np.ndarray := replicate 10 1.
Definition origin : R * R := (0, 0).
Definition loc_still : loc_data := mk_loc origin origin origin origin None.
(** An enrolled profile: reference all ones, spread at the enrolment floor. *)
Definition profile_ones : Tier1.Tier1Authenticator :=
  Tier1.mk 30 0.05 0.02 ones (replicate 10 1e-2) true 0 3.

(** A sample whose first feature (accuracy) is off the reference. *)
Definition sample_dev : np.ndarray := 1.05 :: replicate 9 1.
(** Its z-score on that feature, against [profile_ones]. *)
Definition z0 : R := 0.05 / (1e-2 + 1e-8).
(** The same deviation in a sample with a single nonzero feature. *)
Definition sample_sparse : np.ndarray := 1.05 :: replicate 9 0.
(** A location dict whose last login is away from the current session. *)
Definition loc_away : loc_data := mk_loc (10, 10) origin origin origin None.

(** Stand-ins for the learned models: a graph model and a similarity engine
    that answer 0, a drift tracker that predicts the all-ones sample with
    log-variance 0, the identity scaler, and a Tier 2 model that echoes the
    third entry of the context vector it is given. *)
Definition t3_double : Tier3.Tier3Authenticator :=
  Tier3.mk (fun _ => 0) {["alice" := 0%nat]} (fun _ => (ones, np.zeros 10))
           (fun _ _ => 0) {["alice" := replicate 6 ones]}.
Definition t2_echo (v_ref v_test context : np.ndarray) : R := np.item context 2.
Definition ua_fresh : Orchestrator.UnifiedAuthenticator :=
  Orchestrator.mk ∅ (fun v => v) t2_echo t3_double.
Definition ua_alice : Orchestrator.UnifiedAuthenticator :=
  Orchestrator.mk {["alice" := profile_ones]} (fun v => v) t2_echo t3_double.
Definition req_first : Orchestrator.request_data :=
  Orchestrator.mk_request "bob" 30 ones loc_still.
Definition req_dev : Orchestrator.request_data :=
  Orchestrator.mk_request "alice" 30 sample_dev loc_still.

(** ** Further code: callers, training helpers, and inputs of examples *)

(** A run of Tier 1 calls by one caller: [for v in vs: t1.authenticate(v,
    loc_data)], on one authenticator and one location dict; the results in
    order, and the authenticator and the dict as the run leaves them. *)
Fixpoint authenticate_all (p : Tier1.Tier1Authenticator) (loc : loc_data)
    (vs : list np.ndarray)
  : list (gmap string pyval) * Tier1.Tier1Authenticator * loc_data :=
  match vs with
  | [] => ([], p, loc)
  | v :: vs =>
    let '(r, p', loc') := Tier1.authenticate p v loc in
    let '(rs, p'', loc'') := authenticate_all p' loc' vs in
    (r :: rs, p'', loc'')
  end.
(** [profile_ones] at age 65. *)
Definition profile_senior : Tier1.Tier1Authenticator :=
  Tier1.mk 65 0.05 0.02 ones (replicate 10 1e-2) true 0 3.

(** [gaussian_nll_loss] of [tier3.py], lines 281-283. *)
Definition gaussian_nll_loss (mu log_var y_true : np.ndarray) : R :=
  np.mean (np.scale 0.5
    (np.add log_var (np.div ((fun x => x ^ 2) <$> np.sub y_true mu) (exp <$> log_var)))).

(** ** The training-data generator: [tier2.py] *)

Module Tier2Data.

(** [create_context_vector], lines 40-55.  The random draws are arguments:
    [u] is the value of [random.uniform] (on [2.0, 4.5] for an impostor pair,
    on [0.5, 1.5] otherwise), [c_travel] and [c_disability] the values of the
    two [random.choice([0, 1])], read only where the code draws them. *)
Definition create_context_vector (v_ref v_test : np.ndarray) (age : Z)
    (is_impostor : bool) (u c_travel c_disability : R) : np.ndarray :=
  let distance := np.linalg_norm (np.sub v_ref v_test) / np.linalg_norm v_ref in
  let t1_anomaly_score :=
    if is_impostor then u + distance * 2 else u + distance in
  [distance;
   IZR age / 100.0;
   t1_anomaly_score;
   if decide (t1_anomaly_score > 2.0) then c_travel else 0.0;
   if decide (age > 70)%Z then c_disability else 0.0].

End Tier2Data.

(** A sample far from [profile_ones] on every feature. *)
Definition sample_twos : np.ndarray := replicate 10 2.
Definition req_twos : Orchestrator.request_data :=
  Orchestrator.mk_request "alice" 30 sample_twos loc_still.
(** Enrolment data with too few Tier 1 samples, and a request of that user. *)
Definition short_data : Orchestrator.enrollment_data :=
  Orchestrator.mk_enrollment [ones; ones] [ones].
Definition req_carol : Orchestrator.request_data :=
  Orchestrator.mk_request "carol" 30 ones loc_still.

(** * Properties *)

(** Closed goals on reals with absolute values, and equations between
    arrays written out entry by entry. *)
Ltac solve_real :=
  repeat match goal with
  | |- context [Rabs ?x] =>
    first [ replace x with 0 by lra; rewrite Rabs_R0
          | rewrite (Rabs_pos_eq x) by lra ]
  end; lra.
Ltac vec_eq := repeat (apply (f_equal2 (@cons R)); [solve_real|]); reflexivity.

(** ** The numpy layer *)

Lemma sum_nonneg (a : np.ndarray) : Forall (fun x => 0 <= x) a -> 0 <= np.sum a.
Proof.
  induction 1 as [|x a Hx _ IH]; simpl; [lra|].
  unfold np.sum in *. simpl. lra.
Qed.

Lemma abs_nonneg (a : np.ndarray) : Forall (fun x => 0 <= x) (np.abs a).
Proof.
  unfold np.abs. apply Forall_fmap, Forall_true. intros x. apply Rabs_pos.
Qed.

Lemma mean_nonneg (a : np.ndarray) : Forall (fun x => 0 <= x) a -> 0 <= np.mean a.
Proof.
  intros Ha. unfold np.mean.
  destruct a as [|x a].
  - simpl. unfold Rdiv. rewrite Rinv_0. lra.
  - apply Rmult_le_pos; [now apply sum_nonneg|].
    apply Rlt_le, Rinv_0_lt_compat, lt_0_INR. simpl. lia.
Qed.

Lemma arctan2_0_1 : np.arctan2 0 1 = 0.
Proof.
  unfold np.arctan2. rewrite decide_True by lra.
  replace (0 / 1) with 0 by lra. apply atan_0.
Qed.

Lemma haversine_same (lat lon : R) : Tier1._haversine lat lon lat lon = 0.
Proof.
  unfold Tier1._haversine, np.radians.
  replace ((lat - lat) * (PI / 180) / 2) with 0 by lra.
  replace ((lon - lon) * (PI / 180) / 2) with 0 by lra.
  rewrite sin_0.
  replace (0 ^ 2 + cos (lat * (PI / 180)) * cos (lat * (PI / 180)) * 0 ^ 2) with 0 by lra.
  rewrite sqrt_0. replace (1 - 0) with 1 by lra. rewrite sqrt_1, arctan2_0_1. lra.
Qed.

(** ** Tier 1 *)

Lemma rule_checks_loc (p : Tier1.Tier1Authenticator) (v : np.ndarray) (loc : loc_data) :
  (Tier1._dynamic_rule_checks p v loc).2 = set_last_login loc (current_session loc).
Proof. reflexivity. Qed.

Lemma result_decision (d : string) (flags : list string) :
  Tier1.result d flags !! "decision" = Some (PyStr d).
Proof. unfold Tier1.result. apply lookup_insert_eq. Qed.

Lemma result_flags (d : string) (flags : list string) :
  Tier1.result d flags !! "flags" = Some (PyList flags).
Proof. unfold Tier1.result. rewrite lookup_insert_ne by done. apply lookup_insert_eq. Qed.

Lemma result_score (d : string) (flags : list string) :
  Tier1.result d flags !! "score" = None.
Proof. unfold Tier1.result. rewrite !lookup_insert_ne by done. apply lookup_empty. Qed.

(** The four branches of [authenticate] on an enrolled profile. *)
Lemma authenticate_skip p v loc :
  Tier1.is_enrolled p = true ->
  (Tier1._compute_anomaly_score p v).1 = None ->
  Tier1.authenticate p v loc =
    (Tier1.result "SKIP INTERVAL (low activity)" (Tier1._dynamic_rule_checks p v loc).1.1,
     Tier1.set_idle_count p (Tier1.idle_count p + 1),
     set_last_login loc (current_session loc)).
Proof.
  intros He Hs. unfold Tier1.authenticate. rewrite He, Hs. simpl negb. cbv iota.
  destruct (Tier1._dynamic_rule_checks p v loc) as [[flags speed] loc'] eqn:E.
  pose proof (rule_checks_loc p v loc) as Hl. rewrite E in Hl. simpl in Hl. now subst.
Qed.

Lemma authenticate_pass p v loc s :
  Tier1.is_enrolled p = true ->
  (Tier1._compute_anomaly_score p v).1 = Some s ->
  s < 0.8 -> (Tier1._dynamic_rule_checks p v loc).1.1 = [] ->
  Tier1.authenticate p v loc =
    (Tier1.result "PASS" [],
     Tier1._update_profile (Tier1.set_idle_count p 0) v,
     set_last_login loc (current_session loc)).
Proof.
  intros He Hs Hlt Hf. unfold Tier1.authenticate. rewrite He, Hs. simpl negb. cbv iota.
  destruct (Tier1._dynamic_rule_checks p v loc) as [[flags speed] loc'] eqn:E.
  pose proof (rule_checks_loc p v loc) as Hl. rewrite E in Hl. simpl in Hl, Hf. subst.
  rewrite decide_True; [done|]. unfold Tier1.T_PASS. split; [lra|done].
Qed.

Lemma authenticate_t3 p v loc s :
  Tier1.is_enrolled p = true ->
  (Tier1._compute_anomaly_score p v).1 = Some s ->
  s >= 2.0 \/ (1 < length (Tier1._dynamic_rule_checks p v loc).1.1)%nat ->
  Tier1.authenticate p v loc =
    (Tier1.result "ESCALATE TO T3 (High Anomaly)" (Tier1._dynamic_rule_checks p v loc).1.1,
     Tier1.set_idle_count p 0,
     set_last_login loc (current_session loc)).
Proof.
  intros He Hs Hor. unfold Tier1.authenticate. rewrite He, Hs. simpl negb. cbv iota.
  destruct (Tier1._dynamic_rule_checks p v loc) as [[flags speed] loc'] eqn:E.
  pose proof (rule_checks_loc p v loc) as Hl. rewrite E in Hl. simpl in Hl, Hor. subst.
  rewrite decide_False.
  - rewrite decide_True; [done|]. unfold Tier1.T_ESC_T2. tauto.
  - unfold Tier1.T_PASS. intros [H1 H2]. destruct Hor as [H|H]; [lra|].
    subst flags. simpl in H. lia.
Qed.

Lemma authenticate_t2 p v loc s :
  Tier1.is_enrolled p = true ->
  (Tier1._compute_anomaly_score p v).1 = Some s ->
  ~ (s < 0.8 /\ (Tier1._dynamic_rule_checks p v loc).1.1 = []) ->
  ~ (s >= 2.0 \/ (1 < length (Tier1._dynamic_rule_checks p v loc).1.1)%nat) ->
  Tier1.authenticate p v loc =
    (Tier1.result "ESCALATE TO T2 (Medium Anomaly)" (Tier1._dynamic_rule_checks p v loc).1.1,
     Tier1.set_idle_count p 0,
     set_last_login loc (current_session loc)).
Proof.
  intros He Hs Hn1 Hn2. unfold Tier1.authenticate. rewrite He, Hs. simpl negb. cbv iota.
  destruct (Tier1._dynamic_rule_checks p v loc) as [[flags speed] loc'] eqn:E.
  pose proof (rule_checks_loc p v loc) as Hl. rewrite E in Hl. simpl in Hl, Hn1, Hn2. subst.
  unfold Tier1.T_PASS, Tier1.T_ESC_T2.
  rewrite decide_False by done. rewrite decide_False by done. done.
Qed.

(** C1. On an enrolled profile, with the anomaly score computable: a score
    below 0.8 with no flag gives PASS and runs the profile update; a score at
    or above 2.0, or more than one flag, gives the escalation to Tier 3;
    every other case gives the escalation to Tier 2.  With no score the
    decision is SKIP, the idle counter grows by one, and the label is none
    of those by which the orchestrator routes a request to Tier 2 or 3. *)
Theorem C1_tier1_decision_policy
    (p : Tier1.Tier1Authenticator) (v : np.ndarray) (loc : loc_data) :
  Tier1.is_enrolled p = true ->
  well_shaped p v ->
  let flags := (Tier1._dynamic_rule_checks p v loc).1.1 in
  let res := (Tier1.authenticate p v loc).1.1 in
  let p' := (Tier1.authenticate p v loc).1.2 in
  match (Tier1._compute_anomaly_score p v).1 with
  | Some score =>
    (score < 0.8 /\ flags = [] ->
       res !! "decision" = Some (PyStr "PASS")
       /\ p' = Tier1._update_profile (Tier1.set_idle_count p 0) v)
    /\ (score >= 2.0 \/ (1 < length flags)%nat ->
       res !! "decision" = Some (PyStr "ESCALATE TO T3 (High Anomaly)")
       /\ p' = Tier1.set_idle_count p 0)
    /\ (~ (score < 0.8 /\ flags = []) ->
        ~ (score >= 2.0 \/ (1 < length flags)%nat) ->
       res !! "decision" = Some (PyStr "ESCALATE TO T2 (Medium Anomaly)")
       /\ p' = Tier1.set_idle_count p 0)
  | None =>
    res !! "decision" = Some (PyStr "SKIP INTERVAL (low activity)")
    /\ Tier1.idle_count p' = S (Tier1.idle_count p)
    /\ Tier1.D_ref p' = Tier1.D_ref p /\ Tier1.D_std p' = Tier1.D_std p
    /\ str_in "ESCALATE TO T2" (get_str res "decision") = false
    /\ str_in "ESCALATE TO T3" (get_str res "decision") = false
  end.
Proof.
  intros He _ flags res p'. subst flags res p'.
  destruct (Tier1._compute_anomaly_score p v).1 as [s|] eqn:Hs.
  - split; [|split].
    + intros [Hlt Hf]. rewrite (authenticate_pass p v loc s He Hs Hlt Hf). simpl.
      split; [apply result_decision|done].
    + intros Hor. rewrite (authenticate_t3 p v loc s He Hs Hor). simpl.
      split; [apply result_decision|done].
    + intros Hn1 Hn2. rewrite (authenticate_t2 p v loc s He Hs Hn1 Hn2). simpl.
      split; [apply result_decision|done].
  - rewrite (authenticate_skip p v loc He Hs). simpl.
    unfold get_str. rewrite result_decision.
    repeat split; try done. lia.
Qed.

(** ** Evaluating the Tier 1 checks *)

Lemma count_nonzero_cons_nz (x : R) (a : np.ndarray) :
  x <> 0 -> np.count_nonzero (x :: a) = S (np.count_nonzero a).
Proof. intros Hx. unfold np.count_nonzero. now rewrite filter_cons_True. Qed.

Lemma count_nonzero_cons_z (a : np.ndarray) :
  np.count_nonzero (0 :: a) = np.count_nonzero a.
Proof. unfold np.count_nonzero. rewrite filter_cons_False; [done|]. intros H. now apply H. Qed.

Lemma count_nonzero_nil : np.count_nonzero [] = 0%nat.
Proof. reflexivity. Qed.

Lemma count_nonzero_all (a : np.ndarray) :
  Forall (fun x => x <> 0) a -> np.count_nonzero a = length a.
Proof.
  induction 1 as [|x a Hx _ IH]; [done|].
  rewrite count_nonzero_cons_nz by done. simpl. now rewrite IH.
Qed.

Lemma count_nonzero_le (a : np.ndarray) : (np.count_nonzero a <= length a)%nat.
Proof. unfold np.count_nonzero. apply length_filter. Qed.

Lemma sum_all_zero (a : np.ndarray) : all_zero a -> np.sum a = 0.
Proof.
  induction 1 as [|x a Hx _ IH]; [done|].
  unfold np.sum in *. simpl. rewrite IH, Hx. lra.
Qed.

Lemma mean_all_zero (a : np.ndarray) : all_zero a -> np.mean a = 0.
Proof. intros H. unfold np.mean. rewrite sum_all_zero by done. lra. Qed.

Lemma item_all_zero (a : np.ndarray) (i : nat) : all_zero a -> np.item a i = 0.
Proof.
  intros H. unfold np.item. destruct (a !! i) as [x|] eqn:E; [|done].
  simpl. eapply (Forall_lookup_1 _ _ _ _ H E).
Qed.

(** A sample equal to the reference has all its z-scores at zero. *)
Lemma z_scores_at_ref (p : Tier1.Tier1Authenticator) :
  all_zero (Tier1.z_scores_of p (Tier1.D_ref p)).
Proof.
  unfold Tier1.z_scores_of, np.abs, np.div, np.sub, np.adds, all_zero.
  generalize (Tier1.D_std p). induction (Tier1.D_ref p) as [|x r IH]; intros s.
  - constructor.
  - destruct s as [|y s]; simpl; constructor.
    + replace ((x - x) / (y + 1e-8)) with 0 by lra. apply Rabs_R0.
    + apply IH.
Qed.

Lemma score_at_ref (p : Tier1.Tier1Authenticator) :
  (4 <= np.count_nonzero (Tier1.D_ref p))%nat ->
  (Tier1._compute_anomaly_score p (Tier1.D_ref p)).1 = Some 0.
Proof.
  intros H. unfold Tier1._compute_anomaly_score.
  rewrite decide_False by lia. simpl.
  rewrite mean_all_zero by apply z_scores_at_ref.
  destruct (decide _); f_equal; lra.
Qed.

(** The rule checks when nothing moved and no designated feature deviates. *)
Lemma flags_quiet (p : Tier1.Tier1Authenticator) (v : np.ndarray) (loc : loc_data) :
  last_login loc = current_session loc ->
  prev_30s loc = latest_30s loc ->
  all_zero (Tier1.z_scores_of p v) ->
  (Tier1._dynamic_rule_checks p v loc).1.1 = [].
Proof.
  intros H1 H2 Hz. unfold Tier1._dynamic_rule_checks. simpl.
  unfold Tier1.dist_login_of, Tier1.speed_kmh_of. simpl.
  rewrite H1, H2, !haversine_same, !(item_all_zero _ _ Hz).
  rewrite (decide_False (P := 0 > 10)) by lra.
  rewrite (decide_False (P := 0 / (30 / 3600) > 120)) by lra.
  rewrite !decide_False by lra. done.
Qed.

Lemma well_shaped_ones : well_shaped profile_ones ones.
Proof. repeat split; simpl; lia. Qed.

Lemma count_nonzero_ones : np.count_nonzero ones = 10%nat.
Proof.
  unfold ones. rewrite count_nonzero_all; [done|].
  apply Forall_replicate. lra.
Qed.

Lemma score_ones : (Tier1._compute_anomaly_score profile_ones ones).1 = Some 0.
Proof.
  apply (score_at_ref profile_ones).
  change (Tier1.D_ref profile_ones) with ones. rewrite count_nonzero_ones. lia.
Qed.

Lemma flags_ones : (Tier1._dynamic_rule_checks profile_ones ones loc_still).1.1 = [].
Proof.
  apply flags_quiet; [reflexivity|reflexivity|apply (z_scores_at_ref profile_ones)].
Qed.

Lemma C1_witness :
  (Tier1.authenticate profile_ones ones loc_still).1.1 !! "decision" = Some (PyStr "PASS").
Proof.
  pose proof (C1_tier1_decision_policy profile_ones ones loc_still
                eq_refl well_shaped_ones) as H.
  cbv zeta in H.
  rewrite score_ones in H.
  destruct H as [H _]. apply H. split; [lra|apply flags_ones].
Defined.

(** ** Tier 3 *)

Lemma t3_result (t : Tier3.Tier3Authenticator) (uid : string) (v_test v_ref : np.ndarray) :
  let final :=
    Tier3.fuse (Tier3._get_gnn_risk t uid) (Tier3.drift_anomaly_of t uid v_test)
               (1.0 - Tier3.similarity_engine t v_ref v_test) in
  (Tier3.authenticate t uid v_test v_ref).1 =
    <["decision" := PyStr (Tier3.decide_final final)]>
      (<["final_score" := PyFloat final]> ∅).
Proof. reflexivity. Qed.

Lemma decide_final_block (f : R) : f > 0.6 -> Tier3.decide_final f = "BLOCK - HIGH RISK"%string.
Proof. intros H. unfold Tier3.decide_final. now rewrite decide_True. Qed.

Lemma decide_final_review (f : R) :
  0.35 < f <= 0.6 -> Tier3.decide_final f = "MANUAL REVIEW"%string.
Proof.
  intros [H1 H2]. unfold Tier3.decide_final.
  rewrite decide_False by lra. rewrite decide_True by lra. done.
Qed.

Lemma decide_final_pass (f : R) : f <= 0.35 -> Tier3.decide_final f = "PASS (T3 Verified)"%string.
Proof.
  intros H. unfold Tier3.decide_final.
  rewrite decide_False by lra. rewrite decide_False by lra. done.
Qed.

(** C2. The Tier 3 final score is 0.5 graphRisk + 0.2 driftAnomaly + 0.3
    similarityRisk, the weights sum to 1, the decision is BLOCK above 0.6,
    MANUAL REVIEW in (0.35, 0.6] and PASS up to 0.35, and the score is in
    [0,1] when the three risks are; with risks 0, 0 and 1 the score is 0.3
    and the decision PASS. *)
Theorem C2_tier3_fusion
    (t : Tier3.Tier3Authenticator) (uid : string) (v_test v_ref : np.ndarray) :
  let graphRisk := Tier3._get_gnn_risk t uid in
  let driftAnomaly := Tier3.drift_anomaly_of t uid v_test in
  let similarityRisk := 1 - Tier3.similarity_engine t v_ref v_test in
  let res := (Tier3.authenticate t uid v_test v_ref).1 in
  exists final : R,
    res !! "final_score" = Some (PyFloat final)
    /\ final = 0.5 * graphRisk + 0.2 * driftAnomaly + 0.3 * similarityRisk
    /\ Tier3.w_gnn + Tier3.w_drift + Tier3.w_similarity = 1
    /\ (final > 0.6 -> res !! "decision" = Some (PyStr "BLOCK - HIGH RISK"))
    /\ (0.35 < final <= 0.6 -> res !! "decision" = Some (PyStr "MANUAL REVIEW"))
    /\ (final <= 0.35 -> res !! "decision" = Some (PyStr "PASS (T3 Verified)"))
    /\ (0 <= graphRisk <= 1 -> 0 <= driftAnomaly <= 1 -> 0 <= similarityRisk <= 1 ->
        0 <= final <= 1)
    /\ (graphRisk = 0 -> driftAnomaly = 0 -> similarityRisk = 1 ->
        final = 0.3 /\ res !! "decision" = Some (PyStr "PASS (T3 Verified)")).
Proof.
  intros gr dr sr res. subst res. rewrite t3_result. cbv zeta.
  set (final := Tier3.fuse _ _ _).
  assert (Hf : final = 0.5 * gr + 0.2 * dr + 0.3 * sr).
  { subst final gr dr sr. unfold Tier3.fuse, Tier3.w_gnn, Tier3.w_drift, Tier3.w_similarity. lra. }
  exists final. split; [|split; [exact Hf|split]].
  - rewrite lookup_insert_ne by done. apply lookup_insert_eq.
  - unfold Tier3.w_gnn, Tier3.w_drift, Tier3.w_similarity. lra.
  - rewrite lookup_insert_eq. repeat split.
    + intros H. now rewrite decide_final_block.
    + intros H. now rewrite decide_final_review.
    + intros H. now rewrite decide_final_pass.
    + lra.
    + lra.
    + lra.
    + rewrite decide_final_pass; [done|lra].
Qed.


Lemma drift_long (t : Tier3.Tier3Authenticator) (uid : string) (v_test : np.ndarray)
    (h : list np.ndarray) :
  Tier3.user_history t !! uid = Some h -> (6 <= length h)%nat ->
  Tier3.drift_anomaly_of t uid v_test =
    Rmin (np.mean (Tier3.nll v_test (Tier3.drift_tracker t h).1 (Tier3.drift_tracker t h).2)
          / 5.0) 1.0.
Proof.
  intros Hh Hl. unfold Tier3.drift_anomaly_of. rewrite Hh.
  rewrite decide_True.
  - now destruct (Tier3.drift_tracker t h).
  - split; [|lia]. intros ->. simpl in Hl. lia.
Qed.

Lemma zip_with_lookup {A B C} (f : A -> B -> C) (l : list A) (k : list B)
    (i : nat) (x : A) (y : B) :
  l !! i = Some x -> k !! i = Some y -> zip_with f l k !! i = Some (f x y).
Proof. intros Hx Hy. rewrite lookup_zip_with, Hx. simpl. now rewrite Hy. Qed.

(** The entries of the per-feature negative log-likelihood. *)
Lemma nll_lookup (v_test mu log_var : np.ndarray) (i : nat) (x m l : R) :
  v_test !! i = Some x -> mu !! i = Some m -> log_var !! i = Some l ->
  Tier3.nll v_test mu log_var !! i = Some (0.5 * (l + (x - m) * (x - m) / exp l)).
Proof.
  intros Hx Hm Hl.
  unfold Tier3.nll, np.scale, np.add, np.div, np.square, np.sub.
  assert (H1 : (np.square (np.sub v_test mu)) !! i = Some ((x - m) * (x - m))).
  { unfold np.square, np.sub. rewrite list_lookup_fmap.
    now rewrite (zip_with_lookup Rminus v_test mu i x m). }
  assert (H2 : (exp <$> log_var) !! i = Some (exp l)).
  { now rewrite list_lookup_fmap, Hl. }
  rewrite list_lookup_fmap.
  rewrite (zip_with_lookup Rplus _ _ i l ((x - m) * (x - m) / exp l)); [done|done|].
  now apply zip_with_lookup.
Qed.


(** ** Tier 3 on the stand-in models *)

Lemma nll_double : Tier3.nll ones ones (np.zeros 10) = np.zeros 10.
Proof.
  cbv [Tier3.nll np.scale np.add np.div np.square np.sub np.zeros ones replicate
       fmap list_fmap zip_with].
  rewrite exp_0.
  repeat (apply (f_equal2 (@cons R)); [lra|]). reflexivity.
Qed.

Lemma drift_double : Tier3.drift_anomaly_of t3_double "alice" ones = 0.
Proof.
  rewrite (drift_long t3_double "alice" ones (replicate 6 ones)).
  - change (Tier3.drift_tracker t3_double (replicate 6 ones)) with (ones, np.zeros 10).
    cbn [fst snd]. rewrite nll_double.
    rewrite mean_all_zero by (apply Forall_replicate; reflexivity).
    replace (0 / 5.0) with 0 by lra. apply Rmin_left. lra.
  - reflexivity.
  - simpl. lia.
Qed.

Lemma C2_witness :
  (Tier3.authenticate t3_double "alice" ones ones).1 !! "decision"
    = Some (PyStr "PASS (T3 Verified)")
  /\ (Tier3.authenticate t3_double "alice" ones ones).1 !! "final_score"
     = Some (PyFloat 0.3).
Proof.
  destruct (C2_tier3_fusion t3_double "alice" ones ones)
    as (final & Hf & _ & _ & _ & _ & _ & _ & Hs).
  destruct Hs as [He Hd].
  - reflexivity.
  - exact drift_double.
  - change (Tier3.similarity_engine t3_double ones ones) with 0. lra.
  - split; [exact Hd|]. now rewrite Hf, He.
Defined.


(** ** The profile update *)

Lemma update_noop_none (p : Tier1.Tier1Authenticator) (v : np.ndarray) :
  (Tier1._compute_anomaly_score p v).1 = None -> Tier1._update_profile p v = p.
Proof. intros H. unfold Tier1._update_profile. now rewrite H. Qed.

Lemma update_noop_high (p : Tier1.Tier1Authenticator) (v : np.ndarray) (s : R) :
  (Tier1._compute_anomaly_score p v).1 = Some s -> s >= 1.5 ->
  Tier1._update_profile p v = p.
Proof.
  intros H Hs. unfold Tier1._update_profile. rewrite H.
  rewrite decide_True; [done|now left].
Qed.

Lemma update_noop_sparse (p : Tier1.Tier1Authenticator) (v : np.ndarray) :
  (np.count_nonzero v < 6)%nat -> Tier1._update_profile p v = p.
Proof.
  intros Hc. unfold Tier1._update_profile.
  destruct (Tier1._compute_anomaly_score p v).1 as [s|]; [|done].
  rewrite decide_True; [done|now right].
Qed.

Lemma update_ema (p : Tier1.Tier1Authenticator) (v : np.ndarray) (s : R) :
  (Tier1._compute_anomaly_score p v).1 = Some s -> s < 1.5 ->
  (6 <= np.count_nonzero v)%nat ->
  let D_ref' :=
    np.add (np.scale (Tier1.alpha_mean p) v)
           (np.scale (1 - Tier1.alpha_mean p) (Tier1.D_ref p)) in
  Tier1._update_profile p v =
    Tier1.set_profile p D_ref'
      (np.add (np.scale (Tier1.alpha_std p) (np.abs (np.sub v D_ref')))
              (np.scale (1 - Tier1.alpha_std p) (Tier1.D_std p))).
Proof.
  intros H Hs Hc. unfold Tier1._update_profile. rewrite H.
  rewrite decide_False; [done|]. intros [H1|H1]; [lra|lia].
Qed.

Lemma ema_lookup (a : R) (v w : np.ndarray) (i : nat) (x y : R) :
  v !! i = Some x -> w !! i = Some y ->
  np.add (np.scale a v) (np.scale (1 - a) w) !! i = Some (a * x + (1 - a) * y).
Proof.
  intros Hx Hy. unfold np.add, np.scale.
  apply zip_with_lookup; rewrite list_lookup_fmap; [now rewrite Hx|now rewrite Hy].
Qed.

Lemma ema_length (a : R) (v w : np.ndarray) :
  length (np.add (np.scale a v) (np.scale (1 - a) w)) = Nat.min (length v) (length w).
Proof. unfold np.add, np.scale. now rewrite length_zip_with, !length_fmap. Qed.

Lemma abs_sub_length (v w : np.ndarray) :
  length (np.abs (np.sub v w)) = Nat.min (length v) (length w).
Proof. unfold np.abs, np.sub. now rewrite length_fmap, length_zip_with. Qed.

(** C5. The profile update leaves the profile as it is when the anomaly
    score of the sample cannot be computed, or is at or above 1.5, or fewer
    than 6 features of the sample are nonzero.  Otherwise it assigns, in this
    order, referenceVector <- 0.05 sample + 0.95 referenceVector and
    deviationScale <- 0.02 |sample - referenceVector| + 0.98 deviationScale
    (the second assignment reads the reference the first one has written, so
    its |sample - referenceVector| is 0.95 times the distance to the old
    reference). *)
Theorem C5_update_profile (p : Tier1.Tier1Authenticator) (v : np.ndarray) :
  Tier1.alpha_mean p = 0.05 -> Tier1.alpha_std p = 0.02 ->
  well_shaped p v ->
  let p' := Tier1._update_profile p v in
  let score := (Tier1._compute_anomaly_score p v).1 in
  (score = None \/ (exists s, score = Some s /\ s >= 1.5) \/ (np.count_nonzero v < 6)%nat ->
     p' = p /\ Tier1.D_ref p' = Tier1.D_ref p /\ Tier1.D_std p' = Tier1.D_std p)
  /\ (forall s, score = Some s -> s < 1.5 -> (6 <= np.count_nonzero v)%nat ->
      length (Tier1.D_ref p') = length v /\ length (Tier1.D_std p') = length v
      /\ forall i x r d,
           v !! i = Some x -> Tier1.D_ref p !! i = Some r -> Tier1.D_std p !! i = Some d ->
           exists r',
             r' = 0.05 * x + 0.95 * r
             /\ Tier1.D_ref p' !! i = Some r'
             /\ Tier1.D_std p' !! i = Some (0.02 * Rabs (x - r') + 0.98 * d)
             /\ Rabs (x - r') = 0.95 * Rabs (x - r)).
Proof.
  intros Ham Has (Hr & Hd & Hlen) p' score. subst p' score. split.
  - intros [H|[(s & H & Hs)|H]].
    + now rewrite update_noop_none.
    + now rewrite (update_noop_high p v s).
    + now rewrite update_noop_sparse.
  - intros s H Hs Hc. rewrite (update_ema p v s H Hs Hc). cbv zeta. simpl.
    rewrite Ham, Has.
    assert (Hl1 : length (np.add (np.scale 0.05 v) (np.scale (1 - 0.05) (Tier1.D_ref p)))
                  = length v) by (rewrite ema_length; lia).
    split; [exact Hl1|]. split.
    + rewrite ema_length, abs_sub_length, Hl1. lia.
    + intros i x r d Hx Hri Hdi.
      exists (0.05 * x + 0.95 * r). split; [done|].
      assert (Hr' : np.add (np.scale 0.05 v) (np.scale (1 - 0.05) (Tier1.D_ref p)) !! i
                    = Some (0.05 * x + 0.95 * r)).
      { rewrite (ema_lookup 0.05 v (Tier1.D_ref p) i x r Hx Hri). f_equal. lra. }
      split; [exact Hr'|]. split; cycle 1.
      { replace (x - (0.05 * x + 0.95 * r)) with (0.95 * (x - r)) by lra.
        rewrite Rabs_mult, (Rabs_pos_eq 0.95) by lra. done. }
      rewrite (ema_lookup 0.02 _ (Tier1.D_std p) i (Rabs (x - (0.05 * x + 0.95 * r))) d).
      * f_equal. lra.
      * unfold np.abs, np.sub. rewrite list_lookup_fmap.
        now rewrite (zip_with_lookup Rminus v _ i x (0.05 * x + 0.95 * r)).
      * exact Hdi.
Qed.

Lemma C5_witness :
  exists r',
    r' = 0.05 * 1 + 0.95 * 1
    /\ Tier1.D_ref (Tier1._update_profile profile_ones ones) !! 0%nat = Some r'
    /\ Tier1.D_std (Tier1._update_profile profile_ones ones) !! 0%nat
       = Some (0.02 * Rabs (1 - r') + 0.98 * 1e-2)
    /\ Rabs (1 - r') = 0.95 * Rabs (1 - 1).
Proof.
  destruct (C5_update_profile profile_ones ones eq_refl eq_refl well_shaped_ones) as [_ H].
  assert (Hc : (6 <= np.count_nonzero ones)%nat) by (rewrite count_nonzero_ones; lia).
  assert (Hs : 0 < 1.5) by lra.
  destruct (H 0 score_ones Hs Hc) as (_ & _ & H').
  exact (H' 0%nat 1 1 1e-2 eq_refl eq_refl eq_refl).
Defined.

(** ** Enrolment from one replicated sample *)

Lemma ema_same (a : R) (v : np.ndarray) :
  np.add (np.scale a v) (np.scale (1 - a) v) = v.
Proof.
  unfold np.add, np.scale. induction v as [|x v IH]; [done|].
  simpl. f_equal; [lra|exact IH].
Qed.

Lemma std_ema_same (a : R) (v d : np.ndarray) :
  length d = length v ->
  np.add (np.scale a (np.abs (np.sub v v))) (np.scale (1 - a) d) = np.scale (1 - a) d.
Proof.
  unfold np.add, np.scale, np.abs, np.sub. revert d.
  induction v as [|x v IH]; intros [|y d] Hl; simpl in *; try done.
  f_equal.
  - replace (x - x) with 0 by lra. rewrite Rabs_R0. lra.
  - apply IH. lia.
Qed.

(** A sample equal to the reference moves only the spread, which shrinks. *)
Lemma update_at_ref (p : Tier1.Tier1Authenticator) :
  length (Tier1.D_std p) = length (Tier1.D_ref p) ->
  (6 <= np.count_nonzero (Tier1.D_ref p))%nat ->
  Tier1._update_profile p (Tier1.D_ref p) =
    Tier1.set_profile p (Tier1.D_ref p) (np.scale (1 - Tier1.alpha_std p) (Tier1.D_std p)).
Proof.
  intros Hl Hc.
  assert (Hs : (Tier1._compute_anomaly_score p (Tier1.D_ref p)).1 = Some 0)
    by (apply score_at_ref; lia).
  assert (H0 : 0 < 1.5) by lra.
  rewrite (update_ema p _ 0 Hs H0 Hc). cbv zeta.
  rewrite ema_same. now rewrite std_ema_same.
Qed.

Lemma sum5_same (v : np.ndarray) :
  (fun s => s / 5) <$> np.add v (np.add v (np.add v (np.add v (np.add v (np.zeros (length v))))))
  = v.
Proof.
  unfold np.add, np.zeros. induction v as [|x v IH]; [done|].
  simpl. f_equal; [lra|exact IH].
Qed.

Lemma mean_axis0_replicate5 (v : np.ndarray) : np.mean_axis0 (replicate 5 v) = v.
Proof.
  unfold np.mean_axis0, np.sum_axis0.
  change (replicate 5 v) with [v; v; v; v; v].
  replace (INR (length [v; v; v; v; v])) with 5 by (simpl; lra).
  apply sum5_same.
Qed.

Lemma square_sub_same (v : np.ndarray) : np.square (np.sub v v) = np.zeros (length v).
Proof.
  unfold np.square, np.sub, np.zeros. induction v as [|x v IH]; [done|].
  simpl. f_equal; [lra|exact IH].
Qed.

Lemma std_axis0_replicate5 (v : np.ndarray) :
  np.std_axis0 (replicate 5 v) = np.zeros (length v).
Proof.
  unfold np.std_axis0. cbv zeta. rewrite mean_axis0_replicate5.
  rewrite fmap_replicate, square_sub_same, mean_axis0_replicate5.
  unfold np.zeros. rewrite fmap_replicate. now rewrite sqrt_0.
Qed.

Lemma enroll_replicate5 (a : Z) (v : np.ndarray) :
  Tier1.enroll (Tier1.init a) (replicate 5 v) =
    Tier1.mk a 0.05 0.02 v (replicate (length v) 1e-2) true 0 3.
Proof.
  unfold Tier1.enroll. cbv zeta.
  rewrite decide_False by (rewrite length_replicate; lia).
  rewrite mean_axis0_replicate5, std_axis0_replicate5.
  unfold np.maximum, np.zeros. rewrite fmap_replicate.
  rewrite Rmax_right by lra. done.
Qed.

(** ** The deviating sample against [profile_ones] *)

Lemma z_dev : Tier1.z_scores_of profile_ones sample_dev = z0 :: replicate 9 0.
Proof.
  cbv [Tier1.z_scores_of np.abs np.div np.sub np.adds fmap list_fmap zip_with
       Tier1.D_ref Tier1.D_std profile_ones sample_dev ones replicate z0].
  vec_eq.
Qed.
Lemma count_nonzero_dev : np.count_nonzero sample_dev = 10%nat.
Proof.
  unfold sample_dev. rewrite count_nonzero_all; [done|].
  constructor; [lra|]. apply Forall_replicate. lra.
Qed.
Lemma score_dev : (Tier1._compute_anomaly_score profile_ones sample_dev).1 = Some (z0 / 10).
Proof.
  unfold Tier1._compute_anomaly_score. rewrite decide_False by (rewrite count_nonzero_dev; lia).
  cbv zeta. rewrite decide_False by (simpl; lia). simpl. f_equal.
  rewrite z_dev. unfold np.mean.
  cbv [np.sum foldr replicate length].
  replace (INR 10) with 10 by (simpl; lra). lra.
Qed.

Lemma rule_flags_eq (p : Tier1.Tier1Authenticator) (v : np.ndarray) (loc : loc_data) :
  (Tier1._dynamic_rule_checks p v loc).1.1 =
    (if decide (Tier1.dist_login_of loc > 10)
     then ["Unusual login distance (>10km)"%string] else [])
    ++ (if decide (Tier1.speed_kmh_of loc > 120)
        then ["Abnormal session speed"%string] else [])
    ++ (if decide (np.item v 0 > 0 /\ np.item (Tier1.z_scores_of p v) 0 > 3.0)
        then ["Suspicious accuracy deviation"%string] else [])
    ++ (if decide (np.item v 1 > 0 /\ np.item (Tier1.z_scores_of p v) 1 > 3.0)
        then ["Suspicious flight time deviation"%string] else [])
    ++ (if decide (np.item v 5 > 0 /\ np.item (Tier1.z_scores_of p v) 5 > 3.0)
        then ["Suspicious error rate deviation"%string] else []).
Proof.
  unfold Tier1._dynamic_rule_checks. cbv zeta.
  change (Tier1.speed_kmh_of (set_last_login loc (current_session loc)))
    with (Tier1.speed_kmh_of loc).
  cbn [fst snd].
  repeat destruct (decide _); reflexivity.
Qed.

Lemma dist_login_still : Tier1.dist_login_of loc_still = 0.
Proof. apply haversine_same. Qed.
Lemma speed_still : Tier1.speed_kmh_of loc_still = 0.
Proof. unfold Tier1.speed_kmh_of. simpl. rewrite haversine_same. lra. Qed.

Lemma flags_dev : (Tier1._dynamic_rule_checks profile_ones sample_dev loc_still).1.1 = ["Suspicious accuracy deviation"%string].
Proof.
  rewrite rule_flags_eq, dist_login_still, speed_still, z_dev.
  change (np.item sample_dev 0) with 1.05.
  change (np.item (z0 :: replicate 9 0) 0) with z0.
  change (np.item (z0 :: replicate 9 0) 1) with 0.
  change (np.item (z0 :: replicate 9 0) 5) with 0.
  rewrite (decide_False (P := 0 > 10)) by lra.
  rewrite (decide_False (P := 0 > 120)) by lra.
  rewrite decide_True by (unfold z0; split; lra).
  rewrite !decide_False by lra. reflexivity.
Qed.

(** ** What every call on an enrolled profile does *)

Lemma update_enrolled (p : Tier1.Tier1Authenticator) (v : np.ndarray) :
  Tier1.is_enrolled (Tier1._update_profile p v) = Tier1.is_enrolled p.
Proof.
  unfold Tier1._update_profile.
  destruct (Tier1._compute_anomaly_score p v).1; [|done].
  now destruct (decide _).
Qed.

(** The rule checks run on every call: their flags are in the result and
    the last login is overwritten, whatever the score. *)
Lemma authenticate_enrolled (p : Tier1.Tier1Authenticator) (v : np.ndarray) (loc : loc_data) :
  Tier1.is_enrolled p = true ->
  (Tier1.authenticate p v loc).1.1 !! "flags"
    = Some (PyList (Tier1._dynamic_rule_checks p v loc).1.1)
  /\ (Tier1.authenticate p v loc).1.1 !! "score" = None
  /\ (Tier1.authenticate p v loc).2 = set_last_login loc (current_session loc)
  /\ Tier1.is_enrolled (Tier1.authenticate p v loc).1.2 = true.
Proof.
  intros He.
  destruct (Tier1._compute_anomaly_score p v).1 as [s|] eqn:Hs.
  - destruct (decide (s < 0.8 /\ (Tier1._dynamic_rule_checks p v loc).1.1 = [])) as [[H1 H2]|H1].
    + rewrite (authenticate_pass p v loc s He Hs H1 H2), H2. cbn [fst snd].
      rewrite result_flags, result_score, update_enrolled. done.
    + destruct (decide (s >= 2.0 \/ (1 < length (Tier1._dynamic_rule_checks p v loc).1.1)%nat))
        as [H3|H3].
      * rewrite (authenticate_t3 p v loc s He Hs H3). cbn [fst snd].
        now rewrite result_flags, result_score.
      * rewrite (authenticate_t2 p v loc s He Hs H1 H3). cbn [fst snd].
        now rewrite result_flags, result_score.
  - rewrite (authenticate_skip p v loc He Hs). cbn [fst snd].
    now rewrite result_flags, result_score.
Qed.

Lemma score_none_iff (p : Tier1.Tier1Authenticator) (v : np.ndarray) :
  (Tier1._compute_anomaly_score p v).1 = None <-> (np.count_nonzero v < 4)%nat.
Proof.
  unfold Tier1._compute_anomaly_score. destruct (decide _); simpl; split; try done; lia.
Qed.

Lemma score_nonneg (p : Tier1.Tier1Authenticator) (v : np.ndarray) (s : R) :
  (Tier1._compute_anomaly_score p v).1 = Some s -> 0 <= s.
Proof.
  unfold Tier1._compute_anomaly_score. destruct (decide _); [done|]. cbv zeta. simpl.
  assert (Hm : 0 <= np.mean (Tier1.z_scores_of p v))
    by (apply mean_nonneg, abs_nonneg).
  destruct (decide _); intros [= <-]; nra.
Qed.

Lemma item_z_scores (p : Tier1.Tier1Authenticator) (v : np.ndarray) (i : nat) (x r d : R) :
  v !! i = Some x -> Tier1.D_ref p !! i = Some r -> Tier1.D_std p !! i = Some d ->
  np.item (Tier1.z_scores_of p v) i = Rabs ((x - r) / (d + 1e-8)).
Proof.
  intros Hx Hr Hd. unfold np.item, Tier1.z_scores_of, np.abs, np.div, np.sub, np.adds.
  rewrite list_lookup_fmap.
  rewrite (zip_with_lookup Rdiv _ _ i (x - r) (d + 1e-8)); [done| |].
  - now apply zip_with_lookup.
  - now rewrite list_lookup_fmap, Hd.
Qed.

(** C4 (as the code has it). On an enrolled profile a sample with fewer than
    4 nonzero features has no anomaly score, gets the low-activity SKIP
    decision and increments the idle counter, and leaves the reference and
    the spread as they were; the location and per-feature rule checks do run
    on it: their flags are returned with the SKIP and the last login is
    overwritten.  A sample with at least 4 nonzero features has a score,
    which is non-negative. *)
Theorem C4_sparse_sample
    (p : Tier1.Tier1Authenticator) (v : np.ndarray) (loc : loc_data) :
  Tier1.is_enrolled p = true ->
  well_shaped p v ->
  let t1 := Tier1.authenticate p v loc in
  ((np.count_nonzero v < 4)%nat ->
     (Tier1._compute_anomaly_score p v).1 = None
     /\ t1.1.1 !! "decision" = Some (PyStr "SKIP INTERVAL (low activity)")
     /\ Tier1.idle_count t1.1.2 = S (Tier1.idle_count p)
     /\ Tier1.D_ref t1.1.2 = Tier1.D_ref p /\ Tier1.D_std t1.1.2 = Tier1.D_std p
     /\ t1.1.1 !! "flags" = Some (PyList (Tier1._dynamic_rule_checks p v loc).1.1)
     /\ t1.2 = set_last_login loc (current_session loc))
  /\ ((4 <= np.count_nonzero v)%nat ->
      exists s, (Tier1._compute_anomaly_score p v).1 = Some s /\ 0 <= s).
Proof.
  intros He _ t1. subst t1. split.
  - intros Hc. apply (proj2 (score_none_iff p v)) in Hc.
    rewrite (authenticate_skip p v loc He Hc). simpl.
    rewrite result_decision, result_flags. repeat split; try done. lia.
  - intros Hc. destruct (Tier1._compute_anomaly_score p v).1 as [s|] eqn:Hs.
    + exists s. split; [done|]. now apply (score_nonneg p v).
    + apply (proj1 (score_none_iff p v)) in Hs. lia.
Qed.

Lemma count_nonzero_sparse : np.count_nonzero sample_sparse = 1%nat.
Proof.
  unfold sample_sparse. cbv [replicate].
  rewrite count_nonzero_cons_nz by lra. now rewrite !count_nonzero_cons_z.
Qed.

Lemma C4_witness :
  (Tier1.authenticate profile_ones sample_sparse loc_away).1.1 !! "decision"
    = Some (PyStr "SKIP INTERVAL (low activity)")
  /\ (Tier1.authenticate profile_ones sample_sparse loc_away).2
     = set_last_login loc_away origin.
Proof.
  destruct (C4_sparse_sample profile_ones sample_sparse loc_away eq_refl) as [H _].
  - repeat split; simpl; lia.
  - destruct H as (_ & Hd & _ & _ & _ & _ & Hl).
    + rewrite count_nonzero_sparse. lia.
    + split; [exact Hd|exact Hl].
Defined.

(** The claim as the specification states it fails: on this sample with a
    single nonzero feature the per-feature rule check ran and reported its
    flag, and the location dict was overwritten. *)
Lemma C4_counterexample :
  (np.count_nonzero sample_sparse < 4)%nat
  /\ (Tier1.authenticate profile_ones sample_sparse loc_still).1.1 !! "flags"
     = Some (PyList ["Suspicious accuracy deviation"%string])
  /\ (Tier1.authenticate profile_ones sample_sparse loc_away).2 <> loc_away.
Proof.
  assert (Hc : (np.count_nonzero sample_sparse < 4)%nat)
    by (rewrite count_nonzero_sparse; lia).
  split; [exact Hc|]. split.
  - destruct (authenticate_enrolled profile_ones sample_sparse loc_still eq_refl) as (-> & _).
    do 2 f_equal.
    rewrite rule_flags_eq, dist_login_still, speed_still.
    rewrite (item_z_scores profile_ones sample_sparse 0 1.05 1 1e-2) by reflexivity.
    change (np.item sample_sparse 0) with 1.05.
    change (np.item sample_sparse 1) with 0.
    change (np.item sample_sparse 5) with 0.
    rewrite (decide_False (P := 0 > 10)) by lra.
    rewrite (decide_False (P := 0 > 120)) by lra.
    rewrite decide_True.
    + rewrite !decide_False by lra. reflexivity.
    + split; [lra|]. rewrite Rabs_pos_eq; lra.
  - destruct (authenticate_enrolled profile_ones sample_sparse loc_away eq_refl)
      as (_ & _ & -> & _).
    intros H. apply (f_equal last_login) in H. simpl in H.
    apply (f_equal fst) in H. simpl in H. lra.
Qed.

(** C10. A Tier 1 call on an enrolled profile overwrites the location dict
    it is given: the last login becomes the current session coordinates (the
    other entries stay).  A call repeated at once on that dict computes a
    login distance of zero, whatever the last login was before, and so does
    not raise the login-distance flag. *)
Theorem C10_last_login_overwritten
    (p : Tier1.Tier1Authenticator) (v : np.ndarray) (loc : loc_data) :
  Tier1.is_enrolled p = true ->
  well_shaped p v ->
  let t1 := Tier1.authenticate p v loc in
  let loc' := t1.2 in
  last_login loc' = current_session loc
  /\ current_session loc' = current_session loc
  /\ prev_30s loc' = prev_30s loc
  /\ latest_30s loc' = latest_30s loc
  /\ is_traveling loc' = is_traveling loc
  /\ Tier1.dist_login_of loc' = 0
  /\ forall v2 : np.ndarray,
       length v2 = length v ->
       exists flags,
         (Tier1.authenticate t1.1.2 v2 loc').1.1 !! "flags" = Some (PyList flags)
         /\ "Unusual login distance (>10km)"%string ∉ flags.
Proof.
  intros He _ t1 loc'. subst t1 loc'.
  destruct (authenticate_enrolled p v loc He) as (_ & _ & Hl & He').
  rewrite Hl. cbn [last_login current_session prev_30s latest_30s is_traveling set_last_login].
  assert (Hd : Tier1.dist_login_of (set_last_login loc (current_session loc)) = 0)
    by apply haversine_same.
  repeat split; try done.
  intros v2 _. eexists. split.
  - apply authenticate_enrolled, He'.
  - rewrite rule_flags_eq, Hd. rewrite (decide_False (P := 0 > 10)) by lra.
    rewrite !elem_of_app.
    repeat destruct (decide _); rewrite ?elem_of_cons, ?elem_of_nil; intuition discriminate.
Qed.

Lemma C10_witness :
  last_login (Tier1.authenticate profile_ones ones loc_away).2 = origin
  /\ Tier1.dist_login_of (Tier1.authenticate profile_ones ones loc_away).2 = 0.
Proof.
  destruct (C10_last_login_overwritten profile_ones ones loc_away eq_refl well_shaped_ones)
    as (H1 & _ & _ & _ & _ & H2 & _).
  split; [exact H1|exact H2].
Defined.

(** ** The orchestrator *)

Lemma str_in_pass : str_in "PASS" "PASS" = true.
Proof. reflexivity. Qed.
Lemma str_in_t2 :
  str_in "PASS" "ESCALATE TO T2 (Medium Anomaly)"
  || str_in "SKIP" "ESCALATE TO T2 (Medium Anomaly)" = false
  /\ str_in "ESCALATE TO T2" "ESCALATE TO T2 (Medium Anomaly)" = true
  /\ str_in "ESCALATE TO T3" "ESCALATE TO T3" = true.
Proof. repeat split. Qed.

Lemma get_str_lookup (d : gmap string pyval) (k s : string) :
  d !! k = Some (PyStr s) -> get_str d k = s.
Proof. intros H. unfold get_str. now rewrite H. Qed.

Lemma ensure_enrolled_known (ua : Orchestrator.UnifiedAuthenticator)
    (req : Orchestrator.request_data) (p : Tier1.Tier1Authenticator) :
  Orchestrator.user_profiles ua !! Orchestrator.user_id req = Some p ->
  Orchestrator.ensure_enrolled ua req = ua.
Proof. intros H. unfold Orchestrator.ensure_enrolled. now rewrite H. Qed.

Lemma ensure_enrolled_fresh (ua : Orchestrator.UnifiedAuthenticator)
    (req : Orchestrator.request_data) :
  Orchestrator.user_profiles ua !! Orchestrator.user_id req = None ->
  let v := Orchestrator.behavioral_vector req in
  Orchestrator.ensure_enrolled ua req =
    Orchestrator.mk
      (<[Orchestrator.user_id req :=
           Tier1.mk (Orchestrator.age req) 0.05 0.02 v (replicate (length v) 1e-2) true 0 3]>
         (Orchestrator.user_profiles ua))
      (Orchestrator.scaler ua) (Orchestrator.t2_model ua)
      (Tier3.enroll_user_history (Orchestrator.t3 ua) (Orchestrator.user_id req)
         (replicate 15 v)).
Proof.
  intros H v. unfold Orchestrator.ensure_enrolled, Orchestrator.enroll_user.
  rewrite !H. cbn [Orchestrator.t1_samples Orchestrator.t3_history].
  now rewrite enroll_replicate5.
Qed.

(** After lines 65-72 the user has a profile: the lookup of line 75 cannot
    miss. *)
Lemma ensure_enrolled_has_profile (ua : Orchestrator.UnifiedAuthenticator)
    (req : Orchestrator.request_data) :
  is_Some (Orchestrator.user_profiles (Orchestrator.ensure_enrolled ua req)
             !! Orchestrator.user_id req).
Proof.
  destruct (Orchestrator.user_profiles ua !! Orchestrator.user_id req) as [p|] eqn:E.
  - rewrite (ensure_enrolled_known ua req p E). now rewrite E.
  - rewrite (ensure_enrolled_fresh ua req E). cbv zeta.
    cbn [Orchestrator.user_profiles]. now rewrite lookup_insert_eq.
Qed.

Lemma session_unfold (ua : Orchestrator.UnifiedAuthenticator)
    (req : Orchestrator.request_data) (p : Tier1.Tier1Authenticator) :
  Orchestrator.user_profiles (Orchestrator.ensure_enrolled ua req)
    !! Orchestrator.user_id req = Some p ->
  let uid := Orchestrator.user_id req in
  let v := Orchestrator.behavioral_vector req in
  let t1 := Tier1.authenticate p v (Orchestrator.location_info req) in
  let ua2 := Orchestrator.set_profile (Orchestrator.ensure_enrolled ua req) uid t1.1.2 in
  let decision := get_str t1.1.1 "decision" in
  Orchestrator.authenticate_session ua req =
    if str_in "PASS" decision || str_in "SKIP" decision then
      (<["tier" := PyStr "T1"]> (<["decision" := PyStr decision]> ∅), ua2, t1.2)
    else
      match Orchestrator.run_t2 ua2 (Tier1.D_ref p) v (Orchestrator.age req) t1.1.1 t1.2
              decision with
      | inl t2_score =>
        (<["tier" := PyStr "T2"]> (<["decision" := PyStr "PASS"]>
           (<["score" := PyFloat t2_score]> ∅)), ua2, t1.2)
      | inr decision =>
        if str_in "ESCALATE TO T3" decision then
          ((Orchestrator.run_t3 ua2 uid v (Tier1.D_ref p)).1,
           (Orchestrator.run_t3 ua2 uid v (Tier1.D_ref p)).2, t1.2)
        else
          (<["tier" := PyStr "System"]> (<["decision" := PyStr "UNKNOWN_STATE"]> ∅),
           ua2, t1.2)
      end.
Proof.
  intros H uid v t1 ua2 decision. subst uid v t1 ua2 decision.
  unfold Orchestrator.authenticate_session. cbv zeta. rewrite H.
  destruct (Tier1.authenticate p _ _) as [[r p'] l']. cbn [fst snd].
  destruct (str_in "PASS" _ || str_in "SKIP" _); [done|].
  destruct (Orchestrator.run_t2 _ _ _ _ _ _ _) as [s|d]; [done|].
  destruct (str_in "ESCALATE TO T3" d); [|done].
  now destruct (Orchestrator.run_t3 _ _ _ _).
Qed.

(** C8. A request that reaches Tier 2 ends there with PASS, the score
    attached, when the similarity score is 0.8 or more (0.8 itself passes);
    with any lower score it goes on to Tier 3, whose result is the
    response. *)
Theorem C8_tier2_threshold (ua : Orchestrator.UnifiedAuthenticator)
    (req : Orchestrator.request_data) (p : Tier1.Tier1Authenticator) :
  let ua1 := Orchestrator.ensure_enrolled ua req in
  let uid := Orchestrator.user_id req in
  let v := Orchestrator.behavioral_vector req in
  let t1 := Tier1.authenticate p v (Orchestrator.location_info req) in
  Orchestrator.user_profiles ua1 !! uid = Some p ->
  well_shaped p v ->
  t1.1.1 !! "decision" = Some (PyStr "ESCALATE TO T2 (Medium Anomaly)") ->
  let score :=
    Orchestrator.t2_model ua1 (Orchestrator.scaler ua1 (Tier1.D_ref p))
      (Orchestrator.scaler ua1 v)
      (Orchestrator.t2_context (Tier1.D_ref p) v (Orchestrator.age req) t1.1.1 t1.2) in
  let resp := (Orchestrator.authenticate_session ua req).1.1 in
  (score >= 0.8 ->
     resp = <["tier" := PyStr "T2"]> (<["decision" := PyStr "PASS"]>
              (<["score" := PyFloat score]> ∅)))
  /\ (score = 0.8 -> resp !! "decision" = Some (PyStr "PASS"))
  /\ (score < 0.8 ->
      resp = (Tier3.authenticate (Orchestrator.t3 ua1) uid v (Tier1.D_ref p)).1
             ∪ {["tier" := PyStr "T3"]}
      /\ resp !! "tier" = Some (PyStr "T3")).
Proof.
  intros ua1 uid v t1 Hp _ Hd score resp. subst resp.
  rewrite (session_unfold ua req p Hp). cbv zeta.
  fold uid v t1. rewrite (get_str_lookup _ _ _ Hd).
  destruct str_in_t2 as (-> & H2 & H3).
  unfold Orchestrator.run_t2. rewrite H2. cbv zeta.
  fold ua1.
  change (Orchestrator.t2_model (Orchestrator.set_profile ua1 uid t1.1.2)
            (Orchestrator.scaler (Orchestrator.set_profile ua1 uid t1.1.2) (Tier1.D_ref p))
            (Orchestrator.scaler (Orchestrator.set_profile ua1 uid t1.1.2) v)
            (Orchestrator.t2_context (Tier1.D_ref p) v (Orchestrator.age req) t1.1.1 t1.2))
    with score.
  assert (Hge : score >= 0.8 ->
    (if decide (score >= 0.8) then inl score else inr "ESCALATE TO T3"%string)
    = (inl score : R + string)) by (intros; now rewrite decide_True).
  split; [|split].
  - intros H. now rewrite (Hge H).
  - intros H. rewrite Hge by lra. cbn [fst]. rewrite lookup_insert_ne by done.
    apply lookup_insert_eq.
  - intros H. rewrite decide_False by lra. rewrite H3. cbn [fst].
    unfold Orchestrator.run_t3.
    change (Orchestrator.t3 (Orchestrator.set_profile ua1 uid t1.1.2))
      with (Orchestrator.t3 ua1).
    destruct (Tier3.authenticate _ _ _ _) as [f t3'] eqn:E. cbn [fst].
    split; [done|].
    pose proof (t3_result (Orchestrator.t3 ua1) uid v (Tier1.D_ref p)) as Hr.
    cbv zeta in Hr. rewrite E in Hr. cbn [fst] in Hr. subst f.
    apply lookup_union_Some_raw. right. split; [|apply lookup_singleton_eq].
    rewrite !lookup_insert_ne by done. apply lookup_empty.
Qed.

(** The deviating sample goes to Tier 2, and the echoing Tier 2 model
    answers with the third entry of its context vector. *)
Lemma t1_dev :
  Tier1.authenticate profile_ones sample_dev loc_still =
    (Tier1.result "ESCALATE TO T2 (Medium Anomaly)" ["Suspicious accuracy deviation"%string],
     Tier1.set_idle_count profile_ones 0, set_last_login loc_still origin).
Proof.
  rewrite (authenticate_t2 profile_ones sample_dev loc_still (z0 / 10) eq_refl score_dev).
  - now rewrite flags_dev.
  - rewrite flags_dev. intros [_ H]. discriminate.
  - rewrite flags_dev. simpl. unfold z0. intros [H|H]; [lra|lia].
Qed.

Lemma t1_no_score (p : Tier1.Tier1Authenticator) (v : np.ndarray) (loc : loc_data) :
  (Tier1.authenticate p v loc).1.1 !! "score" = None.
Proof.
  destruct (Tier1.is_enrolled p) eqn:He.
  - now destruct (authenticate_enrolled p v loc He) as (_ & H & _).
  - unfold Tier1.authenticate. rewrite He. cbn [negb fst].
    rewrite lookup_insert_ne by done. apply lookup_empty.
Qed.

Lemma t1_is_traveling (p : Tier1.Tier1Authenticator) (v : np.ndarray) (loc : loc_data) :
  is_traveling (Tier1.authenticate p v loc).2 = is_traveling loc.
Proof.
  destruct (Tier1.is_enrolled p) eqn:He.
  - now destruct (authenticate_enrolled p v loc He) as (_ & _ & -> & _).
  - unfold Tier1.authenticate. now rewrite He.
Qed.

(** The context vector built from any Tier 1 result. *)
Lemma context_vector (p : Tier1.Tier1Authenticator) (v v_ref : np.ndarray)
    (loc : loc_data) (a : Z) :
  Orchestrator.t2_context v_ref v a (Tier1.authenticate p v loc).1.1
    (Tier1.authenticate p v loc).2
  = [np.linalg_norm (np.sub v_ref v) / (np.linalg_norm v_ref + 1e-8);
     IZR a / 100.0;
     1.5;
     Orchestrator.float_of_bool (default false (is_traveling loc));
     0.0].
Proof.
  unfold Orchestrator.t2_context, Orchestrator._create_context_vector, get_float.
  now rewrite t1_no_score, t1_is_traveling.
Qed.

Lemma session_dev :
  (Orchestrator.authenticate_session ua_alice req_dev).1.1 =
    <["tier" := PyStr "T2"]> (<["decision" := PyStr "PASS"]> (<["score" := PyFloat 1.5]> ∅)).
Proof.
  assert (Hp : Orchestrator.user_profiles (Orchestrator.ensure_enrolled ua_alice req_dev)
               !! Orchestrator.user_id req_dev = Some profile_ones) by reflexivity.
  rewrite (session_unfold ua_alice req_dev profile_ones Hp). cbv zeta.
  change (Orchestrator.behavioral_vector req_dev) with sample_dev.
  change (Orchestrator.location_info req_dev) with loc_still.
  rewrite t1_dev. cbn [fst snd].
  rewrite (get_str_lookup _ _ _ (result_decision _ _)).
  destruct str_in_t2 as (-> & H2 & _).
  unfold Orchestrator.run_t2. rewrite H2. cbv zeta.
  change (Orchestrator.t2_model _) with t2_echo. unfold t2_echo.
  unfold Orchestrator.t2_context, Orchestrator._create_context_vector, get_float.
  rewrite result_score. change (np.item _ 2) with 1.5.
  rewrite decide_True by lra. reflexivity.
Qed.

Lemma C8_witness :
  (Orchestrator.authenticate_session ua_alice req_dev).1.1 =
    <["tier" := PyStr "T2"]> (<["decision" := PyStr "PASS"]> (<["score" := PyFloat 1.5]> ∅)).
Proof.
  assert (Hw : well_shaped profile_ones sample_dev) by (repeat split; simpl; lia).
  pose proof (C8_tier2_threshold ua_alice req_dev profile_ones eq_refl Hw) as H.
  cbv zeta in H.
  change (Orchestrator.behavioral_vector req_dev) with sample_dev in H.
  change (Orchestrator.location_info req_dev) with loc_still in H.
  rewrite t1_dev in H. cbn [fst snd] in H.
  destruct (H (result_decision _ _)) as [H1 _].
  change (Orchestrator.t2_model _) with t2_echo in H1. unfold t2_echo in H1.
  unfold Orchestrator.t2_context, Orchestrator._create_context_vector, get_float in H1.
  rewrite result_score in H1. apply H1. change (1.5 >= 0.8). lra.
Defined.

(** C6 (the code departs from it). The context vector handed to the Tier 2
    model is the normalized distance, age/100, a third entry, the travel
    indicator and 0; the third entry is the default 1.5 on every request,
    because the result of Tier 1 never holds a score.  On the deviating
    sample Tier 1 computes the score z0 / 10, below 0.5, and escalates to
    Tier 2; the echoing Tier 2 model receives 1.5. *)
Theorem C6_context_score_is_default :
  (forall (p : Tier1.Tier1Authenticator) (v v_ref : np.ndarray) (loc : loc_data) (a : Z),
     Orchestrator.t2_context v_ref v a (Tier1.authenticate p v loc).1.1
       (Tier1.authenticate p v loc).2
     = [np.linalg_norm (np.sub v_ref v) / (np.linalg_norm v_ref + 1e-8);
        IZR a / 100.0;
        1.5;
        Orchestrator.float_of_bool (default false (is_traveling loc));
        0.0])
  /\ (Tier1._compute_anomaly_score profile_ones sample_dev).1 = Some (z0 / 10)
  /\ z0 / 10 < 0.5
  /\ (Tier1.authenticate profile_ones sample_dev loc_still).1.1 !! "decision"
     = Some (PyStr "ESCALATE TO T2 (Medium Anomaly)")
  /\ (Orchestrator.authenticate_session ua_alice req_dev).1.1 !! "score"
     = Some (PyFloat 1.5).
Proof.
  split; [|split; [|split; [|split]]].
  - intros. apply context_vector.
  - exact score_dev.
  - unfold z0. lra.
  - rewrite t1_dev. apply result_decision.
  - rewrite session_dev. rewrite !lookup_insert_ne by done. apply lookup_insert_eq.
Qed.

(** ** The first call of a fresh user *)

Lemma first_call_profile (ua : Orchestrator.UnifiedAuthenticator)
    (req : Orchestrator.request_data) :
  Orchestrator.user_profiles ua !! Orchestrator.user_id req = None ->
  Orchestrator.user_profiles (Orchestrator.ensure_enrolled ua req)
    !! Orchestrator.user_id req
  = Some (bootstrap_profile (Orchestrator.age req) (Orchestrator.behavioral_vector req)).
Proof.
  intros H. rewrite (ensure_enrolled_fresh ua req H). cbv zeta.
  cbn [Orchestrator.user_profiles]. apply lookup_insert_eq.
Qed.

Lemma bootstrap_flags (a : Z) (v : np.ndarray) (loc : loc_data) :
  Tier1.dist_login_of loc <= 10 -> Tier1.speed_kmh_of loc <= 120 ->
  (Tier1._dynamic_rule_checks (bootstrap_profile a v) v loc).1.1 = [].
Proof.
  intros Hd Hs. rewrite rule_flags_eq.
  rewrite !(item_all_zero _ _ (z_scores_at_ref (bootstrap_profile a v))).
  rewrite (decide_False (P := _ > 10)) by lra.
  rewrite (decide_False (P := _ > 120)) by lra.
  rewrite !decide_False by lra. reflexivity.
Qed.

Lemma first_call_t1_pass (a : Z) (v : np.ndarray) (loc : loc_data) :
  (4 <= np.count_nonzero v)%nat ->
  Tier1.dist_login_of loc <= 10 -> Tier1.speed_kmh_of loc <= 120 ->
  Tier1.authenticate (bootstrap_profile a v) v loc =
    (Tier1.result "PASS" [],
     Tier1._update_profile (Tier1.set_idle_count (bootstrap_profile a v) 0) v,
     set_last_login loc (current_session loc)).
Proof.
  intros Hc Hd Hs.
  apply (authenticate_pass (bootstrap_profile a v) v loc 0 eq_refl).
  - now apply (score_at_ref (bootstrap_profile a v)).
  - lra.
  - now apply bootstrap_flags.
Qed.

Lemma first_call_pass (ua : Orchestrator.UnifiedAuthenticator)
    (req : Orchestrator.request_data) :
  let v := Orchestrator.behavioral_vector req in
  let loc := Orchestrator.location_info req in
  let uid := Orchestrator.user_id req in
  Orchestrator.user_profiles ua !! uid = None ->
  (4 <= np.count_nonzero v)%nat ->
  Tier1.dist_login_of loc <= 10 -> Tier1.speed_kmh_of loc <= 120 ->
  Orchestrator.authenticate_session ua req =
    (<["tier" := PyStr "T1"]> (<["decision" := PyStr "PASS"]> ∅),
     Orchestrator.set_profile (Orchestrator.ensure_enrolled ua req) uid
       (Tier1._update_profile
          (Tier1.set_idle_count (bootstrap_profile (Orchestrator.age req) v) 0) v),
     set_last_login loc (current_session loc)).
Proof.
  intros v loc uid Hf Hc Hd Hs.
  rewrite (session_unfold ua req _ (first_call_profile ua req Hf)). cbv zeta.
  fold v loc uid. rewrite (first_call_t1_pass _ v loc Hc Hd Hs). cbn [fst snd].
  rewrite (get_str_lookup _ _ _ (result_decision _ _)).
  now rewrite str_in_pass.
Qed.






(** C3 (the code departs from it). Enrolment clamps the spread at 1e-2, the
    update does not: after the first call of the fresh user "bob" with the
    all-ones sample, which passes Tier 1 and updates the profile, every entry
    of the stored deviationScale is 0.0098, below the floor. *)
Theorem C3_floor_lost_on_first_update :
  Tier1.D_std (Tier1.enroll (Tier1.init 30) (replicate 5 ones)) = replicate 10 1e-2
  /\ exists p' : Tier1.Tier1Authenticator,
       Orchestrator.user_profiles (Orchestrator.authenticate_session ua_fresh req_first).1.2
         !! "bob" = Some p'
       /\ Tier1.D_std p' = replicate 10 0.0098
       /\ Forall (fun d => d < 1e-2) (Tier1.D_std p').
Proof.
  split; [now rewrite enroll_replicate5|].
  assert (Hc : (4 <= np.count_nonzero (Orchestrator.behavioral_vector req_first))%nat).
  { change (Orchestrator.behavioral_vector req_first) with ones.
    rewrite count_nonzero_ones. lia. }
  assert (Hd : Tier1.dist_login_of (Orchestrator.location_info req_first) <= 10).
  { change (Orchestrator.location_info req_first) with loc_still.
    rewrite dist_login_still. lra. }
  assert (Hs : Tier1.speed_kmh_of (Orchestrator.location_info req_first) <= 120).
  { change (Orchestrator.location_info req_first) with loc_still.
    rewrite speed_still. lra. }
  rewrite (first_call_pass ua_fresh req_first eq_refl Hc Hd Hs). cbn [fst snd].
  eexists. split.
  - unfold Orchestrator.set_profile. cbn [Orchestrator.user_profiles].
    apply lookup_insert_eq.
  - change (Orchestrator.behavioral_vector req_first) with ones.
    change (Orchestrator.age req_first) with 30%Z.
    pose proof (update_at_ref (Tier1.set_idle_count (bootstrap_profile 30 ones) 0)) as Hu.
    change (Tier1.D_ref (Tier1.set_idle_count (bootstrap_profile 30 ones) 0)) with ones in Hu.
    rewrite Hu.
    + cbn [Tier1.D_std Tier1.set_profile Tier1.set_idle_count bootstrap_profile Tier1.alpha_std].
      unfold np.scale. rewrite fmap_replicate.
      replace ((1 - 0.02) * 1e-2) with 0.0098 by lra.
      split; [reflexivity|]. apply Forall_replicate. lra.
    + reflexivity.
    + rewrite count_nonzero_ones. lia.
Qed.

(** * Further properties of the code *)

(** ** The haversine distance *)

Lemma arctan2_quadrant (y x : R) : 0 <= y -> 0 <= x -> 0 <= np.arctan2 y x <= PI / 2.
Proof.
  intros Hy Hx. pose proof PI_RGT_0 as Hpi. unfold np.arctan2.
  destruct (decide (0 < x)) as [H|H].
  - assert (Hq : 0 <= y / x) by (apply Rmult_le_pos; [lra|apply Rlt_le, Rinv_0_lt_compat, H]).
    pose proof (atan_bound (y / x)) as [_ Hb]. split; [|lra].
    destruct Hq as [Hq|Hq].
    + apply Rlt_le. rewrite <- atan_0. now apply atan_increasing.
    + rewrite <- Hq, atan_0. lra.
  - rewrite (decide_False (P := x < 0)) by lra.
    destruct (decide (0 < y)); [lra|].
    rewrite (decide_False (P := y < 0)) by lra. lra.
Qed.

(** X1. The haversine distance is symmetric in its two points, is 0 from a
    point to itself, and lies between 0 and half the circumference of the
    sphere of radius 6371 km. *)
Theorem X1_haversine_range (lat1 lon1 lat2 lon2 : R) :
  0 <= Tier1._haversine lat1 lon1 lat2 lon2 <= 6371 * PI
  /\ Tier1._haversine lat1 lon1 lat2 lon2 = Tier1._haversine lat2 lon2 lat1 lon1
  /\ Tier1._haversine lat1 lon1 lat1 lon1 = 0.
Proof.
  split; [|split].
  - unfold Tier1._haversine. cbv zeta.
    match goal with |- context [np.arctan2 ?y ?x] =>
      pose proof (arctan2_quadrant y x (sqrt_pos _) (sqrt_pos _)) as [H1 H2];
      set (t := np.arctan2 y x) in * end.
    split; nra.
  - unfold Tier1._haversine, np.radians. cbv zeta.
    replace ((lat1 - lat2) * (PI / 180) / 2) with (- ((lat2 - lat1) * (PI / 180) / 2)) by lra.
    replace ((lon1 - lon2) * (PI / 180) / 2) with (- ((lon2 - lon1) * (PI / 180) / 2)) by lra.
    rewrite !sin_neg.
    set (s1 := sin _). set (s2 := sin _). set (c1 := cos _). set (c2 := cos _).
    replace ((- s1) ^ 2 + c2 * c1 * (- s2) ^ 2) with (s1 ^ 2 + c1 * c2 * s2 ^ 2) by ring.
    reflexivity.
  - apply haversine_same.
Qed.

(** ** Enrolment *)

Lemma add_length (a b : np.ndarray) : length (np.add a b) = Nat.min (length a) (length b).
Proof. unfold np.add. apply length_zip_with. Qed.

Lemma foldr_add_length (rows : list np.ndarray) (z : np.ndarray) (n : nat) :
  length z = n -> Forall (fun r => length r = n) rows -> length (foldr np.add z rows) = n.
Proof.
  intros Hz Hall. induction Hall as [|r rows Hr _ IH]; simpl; [done|].
  rewrite add_length, IH, Hr. lia.
Qed.

Lemma sum_axis0_length (rows : list np.ndarray) (n : nat) :
  rows <> [] -> Forall (fun r => length r = n) rows -> length (np.sum_axis0 rows) = n.
Proof.
  intros Hne Hall. unfold np.sum_axis0. apply foldr_add_length; [|done].
  destruct rows as [|r0 rows]; [done|]. simpl.
  unfold np.zeros. rewrite length_replicate. now inversion Hall.
Qed.

Lemma mean_axis0_length (rows : list np.ndarray) (n : nat) :
  rows <> [] -> Forall (fun r => length r = n) rows -> length (np.mean_axis0 rows) = n.
Proof.
  intros. unfold np.mean_axis0. rewrite length_fmap. now apply sum_axis0_length.
Qed.

Lemma std_axis0_length (rows : list np.ndarray) (n : nat) :
  rows <> [] -> Forall (fun r => length r = n) rows -> length (np.std_axis0 rows) = n.
Proof.
  intros Hne Hall. unfold np.std_axis0. cbv zeta. rewrite length_fmap.
  apply mean_axis0_length.
  - destruct rows; [done|]. discriminate.
  - apply Forall_fmap. eapply Forall_impl; [exact Hall|].
    intros r Hr. simpl. unfold np.square, np.sub.
    rewrite length_fmap, length_zip_with, Hr.
    rewrite (mean_axis0_length rows n Hne Hall). lia.
Qed.

(** X2. Enrolment is all or nothing: with fewer than 5 samples [enroll]
    returns the authenticator as it was; with 5 or more the authenticator is
    enrolled, keeps its age, rates and idle counter, every entry of the
    spread is at least 1e-2, and on a batch of rows of one length the
    reference and the spread have that length. *)
Theorem X2_enroll_all_or_nothing (p : Tier1.Tier1Authenticator) (vs : list np.ndarray) :
  ((length vs < 5)%nat -> Tier1.enroll p vs = p)
  /\ ((5 <= length vs)%nat ->
      Tier1.is_enrolled (Tier1.enroll p vs) = true
      /\ Forall (fun d => 1e-2 <= d) (Tier1.D_std (Tier1.enroll p vs))
      /\ Tier1.age (Tier1.enroll p vs) = Tier1.age p
      /\ Tier1.alpha_mean (Tier1.enroll p vs) = Tier1.alpha_mean p
      /\ Tier1.alpha_std (Tier1.enroll p vs) = Tier1.alpha_std p
      /\ Tier1.idle_count (Tier1.enroll p vs) = Tier1.idle_count p
      /\ forall n, Forall (fun r => length r = n) vs ->
           length (Tier1.D_ref (Tier1.enroll p vs)) = n
           /\ length (Tier1.D_std (Tier1.enroll p vs)) = n).
Proof.
  unfold Tier1.enroll. cbv zeta. split.
  - intros H. now rewrite decide_True by lia.
  - intros H. rewrite decide_False by lia. simpl.
    split; [done|]. split; [|repeat split; try done].
    + unfold np.maximum. apply Forall_fmap, Forall_true. intros d. simpl. apply Rmax_r.
    + apply mean_axis0_length; [|done]. intros ->. simpl in H. lia.
    + unfold np.maximum. rewrite length_fmap.
      apply std_axis0_length; [|done]. intros ->. simpl in H. lia.
Qed.

Lemma X2_witness :
  Tier1.is_enrolled (Tier1.enroll (Tier1.init 30) (replicate 5 ones)) = true
  /\ Tier1.enroll (Tier1.init 30) [ones; ones] = Tier1.init 30.
Proof.
  destruct (X2_enroll_all_or_nothing (Tier1.init 30) (replicate 5 ones)) as [_ H].
  destruct (X2_enroll_all_or_nothing (Tier1.init 30) [ones; ones]) as [H' _].
  split.
  - apply H. simpl. lia.
  - apply H'. simpl. lia.
Defined.

(** ** Which calls change what *)

Lemma authenticate_unenrolled (p : Tier1.Tier1Authenticator) (v : np.ndarray) (loc : loc_data) :
  Tier1.is_enrolled p = false ->
  Tier1.authenticate p v loc =
    (<["decision" := PyStr "ERROR: User is not enrolled."]> ∅, p, loc).
Proof. intros H. unfold Tier1.authenticate. now rewrite H. Qed.

(** The outcomes of a call on an enrolled profile. *)
Lemma authenticate_cases (p : Tier1.Tier1Authenticator) (v : np.ndarray) (loc : loc_data) :
  Tier1.is_enrolled p = true ->
  let flags := (Tier1._dynamic_rule_checks p v loc).1.1 in
  let loc' := set_last_login loc (current_session loc) in
  ((Tier1._compute_anomaly_score p v).1 = None
   /\ Tier1.authenticate p v loc =
        (Tier1.result "SKIP INTERVAL (low activity)" flags,
         Tier1.set_idle_count p (Tier1.idle_count p + 1), loc'))
  \/ (exists s, (Tier1._compute_anomaly_score p v).1 = Some s /\ s < 0.8 /\ flags = []
      /\ Tier1.authenticate p v loc =
           (Tier1.result "PASS" [], Tier1._update_profile (Tier1.set_idle_count p 0) v, loc'))
  \/ (exists s, (Tier1._compute_anomaly_score p v).1 = Some s
      /\ (s >= 2.0 \/ (1 < length flags)%nat)
      /\ Tier1.authenticate p v loc =
           (Tier1.result "ESCALATE TO T3 (High Anomaly)" flags, Tier1.set_idle_count p 0, loc'))
  \/ (exists s, (Tier1._compute_anomaly_score p v).1 = Some s
      /\ ~ (s < 0.8 /\ flags = []) /\ ~ (s >= 2.0 \/ (1 < length flags)%nat)
      /\ Tier1.authenticate p v loc =
           (Tier1.result "ESCALATE TO T2 (Medium Anomaly)" flags, Tier1.set_idle_count p 0, loc')).
Proof.
  intros He flags loc'. subst flags loc'.
  destruct (Tier1._compute_anomaly_score p v).1 as [s|] eqn:Hs.
  - destruct (decide (s < 0.8 /\ (Tier1._dynamic_rule_checks p v loc).1.1 = [])) as [[H1 H2]|H1].
    + right. left. exists s. repeat split; try done. now apply authenticate_pass with s.
    + destruct (decide (s >= 2.0 \/ (1 < length (Tier1._dynamic_rule_checks p v loc).1.1)%nat))
        as [H3|H3].
      * right. right. left. exists s. repeat split; try done. now apply authenticate_t3 with s.
      * right. right. right. exists s. repeat split; try done. now apply authenticate_t2 with s.
  - left. split; [done|]. now apply authenticate_skip.
Qed.

Lemma update_fields (p : Tier1.Tier1Authenticator) (v : np.ndarray) :
  Tier1.age (Tier1._update_profile p v) = Tier1.age p
  /\ Tier1.alpha_mean (Tier1._update_profile p v) = Tier1.alpha_mean p
  /\ Tier1.alpha_std (Tier1._update_profile p v) = Tier1.alpha_std p
  /\ Tier1.idle_count (Tier1._update_profile p v) = Tier1.idle_count p
  /\ Tier1.idle_threshold (Tier1._update_profile p v) = Tier1.idle_threshold p.
Proof.
  unfold Tier1._update_profile.
  destruct (Tier1._compute_anomaly_score p v).1; [|done].
  now destruct (decide _).
Qed.

(** X3. A Tier 1 call never changes the age, the learning rates, the
    enrolment flag or the idle threshold of the profile, and it changes the
    reference and the spread only when it answers PASS; a PASS carries an
    empty flag list. *)
Theorem X3_only_pass_updates (p : Tier1.Tier1Authenticator) (v : np.ndarray) (loc : loc_data) :
  let t1 := Tier1.authenticate p v loc in
  Tier1.age t1.1.2 = Tier1.age p
  /\ Tier1.alpha_mean t1.1.2 = Tier1.alpha_mean p
  /\ Tier1.alpha_std t1.1.2 = Tier1.alpha_std p
  /\ Tier1.is_enrolled t1.1.2 = Tier1.is_enrolled p
  /\ Tier1.idle_threshold t1.1.2 = Tier1.idle_threshold p
  /\ (t1.1.1 !! "decision" <> Some (PyStr "PASS") ->
      Tier1.D_ref t1.1.2 = Tier1.D_ref p /\ Tier1.D_std t1.1.2 = Tier1.D_std p)
  /\ (t1.1.1 !! "decision" = Some (PyStr "PASS") ->
      t1.1.1 !! "flags" = Some (PyList [])).
Proof.
  intros t1. subst t1. destruct (Tier1.is_enrolled p) eqn:He.
  - destruct (authenticate_cases p v loc He)
      as [[_ ->]|[(s & _ & _ & _ & ->)|[(s & _ & _ & ->)|(s & _ & _ & _ & ->)]]];
      cbn [fst snd]; rewrite ?result_decision, ?result_flags.
    + repeat split; try done.
    + destruct (update_fields (Tier1.set_idle_count p 0) v) as (-> & -> & -> & _ & ->).
      rewrite update_enrolled. repeat split; try done.
    + repeat split; try done.
    + repeat split; try done.
  - rewrite (authenticate_unenrolled p v loc He). cbn [fst snd].
    rewrite lookup_insert_eq. repeat split; try done.
Qed.

(** ** The idle counter *)

(** X4. The idle counter and the idle threshold are never read: two
    profiles that differ only in them get the same result dict, the same new
    reference and spread and the same location dict from a Tier 1 call. *)
Theorem X4_idle_fields_never_read (p : Tier1.Tier1Authenticator) (v : np.ndarray)
    (loc : loc_data) (n m : nat) :
  let q := Tier1.mk (Tier1.age p) (Tier1.alpha_mean p) (Tier1.alpha_std p)
                    (Tier1.D_ref p) (Tier1.D_std p) (Tier1.is_enrolled p) n m in
  (Tier1.authenticate q v loc).1.1 = (Tier1.authenticate p v loc).1.1
  /\ (Tier1.authenticate q v loc).2 = (Tier1.authenticate p v loc).2
  /\ Tier1.D_ref (Tier1.authenticate q v loc).1.2 = Tier1.D_ref (Tier1.authenticate p v loc).1.2
  /\ Tier1.D_std (Tier1.authenticate q v loc).1.2 = Tier1.D_std (Tier1.authenticate p v loc).1.2.
Proof.
  intros q.
  assert (Hs : Tier1._compute_anomaly_score q v = Tier1._compute_anomaly_score p v)
    by reflexivity.
  assert (Hf : Tier1._dynamic_rule_checks q v loc = Tier1._dynamic_rule_checks p v loc)
    by reflexivity.
  assert (Hu : forall k k',
    Tier1.D_ref (Tier1._update_profile (Tier1.set_idle_count q k) v)
      = Tier1.D_ref (Tier1._update_profile (Tier1.set_idle_count p k') v)
    /\ Tier1.D_std (Tier1._update_profile (Tier1.set_idle_count q k) v)
      = Tier1.D_std (Tier1._update_profile (Tier1.set_idle_count p k') v)).
  { intros k k'. unfold Tier1._update_profile.
    change (Tier1._compute_anomaly_score (Tier1.set_idle_count q k) v)
      with (Tier1._compute_anomaly_score p v).
    change (Tier1._compute_anomaly_score (Tier1.set_idle_count p k') v)
      with (Tier1._compute_anomaly_score p v).
    destruct (Tier1._compute_anomaly_score p v).1; [|done].
    now destruct (decide _). }
  unfold Tier1.authenticate. rewrite Hs, Hf.
  change (Tier1.is_enrolled q) with (Tier1.is_enrolled p).
  destruct (Tier1.is_enrolled p); cbn [negb]; [|done].
  destruct (Tier1._dynamic_rule_checks p v loc) as [[flags speed] loc'].
  destruct (Tier1._compute_anomaly_score p v).1 as [s|]; [|done].
  destruct (decide _); [|now destruct (decide _)].
  cbn [fst snd]. destruct (Hu 0%nat 0%nat) as [H1 H2]. done.
Qed.

Lemma authenticate_all_cons (p : Tier1.Tier1Authenticator) (loc : loc_data)
    (v : np.ndarray) (vs : list np.ndarray) :
  authenticate_all p loc (v :: vs) =
    let t1 := Tier1.authenticate p v loc in
    let rest := authenticate_all t1.1.2 t1.2 vs in
    (t1.1.1 :: rest.1.1, rest.1.2, rest.2).
Proof.
  cbn [authenticate_all]. destruct (Tier1.authenticate p v loc) as [[r p'] loc'].
  cbv zeta. cbn [fst snd].
  now destruct (authenticate_all p' loc' vs) as [[rs p''] loc''].
Qed.



(** ** The spread through a run of calls *)

Lemma authenticate_fields (p : Tier1.Tier1Authenticator) (v : np.ndarray) (loc : loc_data) :
  Tier1.age (Tier1.authenticate p v loc).1.2 = Tier1.age p
  /\ Tier1.alpha_mean (Tier1.authenticate p v loc).1.2 = Tier1.alpha_mean p
  /\ Tier1.alpha_std (Tier1.authenticate p v loc).1.2 = Tier1.alpha_std p
  /\ Tier1.is_enrolled (Tier1.authenticate p v loc).1.2 = Tier1.is_enrolled p
  /\ Tier1.idle_threshold (Tier1.authenticate p v loc).1.2 = Tier1.idle_threshold p.
Proof.
  destruct (Tier1.is_enrolled p) eqn:He.
  - destruct (authenticate_cases p v loc He)
      as [[_ ->]|[(s & _ & _ & _ & ->)|[(s & _ & _ & ->)|(s & _ & _ & _ & ->)]]];
      cbn [fst snd]; try done.
    destruct (update_fields (Tier1.set_idle_count p 0) v) as (-> & -> & -> & _ & ->).
    now rewrite update_enrolled.
  - now rewrite (authenticate_unenrolled p v loc He).
Qed.

Lemma update_std_step (p : Tier1.Tier1Authenticator) (v : np.ndarray) :
  length (Tier1.D_ref p) = length v -> length (Tier1.D_std p) = length v ->
  0 <= Tier1.alpha_std p < 1 ->
  length (Tier1.D_ref (Tier1._update_profile p v)) = length v
  /\ length (Tier1.D_std (Tier1._update_profile p v)) = length v
  /\ forall i d, Tier1.D_std p !! i = Some d -> 0 < d ->
       exists d', Tier1.D_std (Tier1._update_profile p v) !! i = Some d'
                  /\ (1 - Tier1.alpha_std p) * d <= d'.
Proof.
  intros Hr Hd Ha. unfold Tier1._update_profile.
  assert (Hsame : forall i d, Tier1.D_std p !! i = Some d -> 0 < d ->
            exists d', Tier1.D_std p !! i = Some d' /\ (1 - Tier1.alpha_std p) * d <= d')
    by (intros i d Hi Hpos; exists d; split; [done|nra]).
  destruct (Tier1._compute_anomaly_score p v).1 as [s|]; [|done].
  destruct (decide _); [done|]. cbn [Tier1.D_ref Tier1.D_std Tier1.set_profile].
  set (r' := np.add (np.scale (Tier1.alpha_mean p) v)
                    (np.scale (1 - Tier1.alpha_mean p) (Tier1.D_ref p))).
  assert (Hl : length r' = length v) by (unfold r'; rewrite ema_length; lia).
  split; [exact Hl|]. split; [rewrite ema_length, abs_sub_length; lia|].
  intros i d Hi Hpos.
  assert (Hlt : (i < length (np.abs (np.sub v r')))%nat).
  { rewrite abs_sub_length, Hl, Nat.min_id, <- Hd. now apply lookup_lt_Some with d. }
  destruct (lookup_lt_is_Some_2 _ _ Hlt) as [a Hai].
  assert (Ha0 : 0 <= a).
  { pose proof (abs_nonneg (np.sub v r')) as Hf.
    apply (Forall_lookup_1 _ _ _ _ Hf Hai). }
  exists (Tier1.alpha_std p * a + (1 - Tier1.alpha_std p) * d). split.
  - now apply ema_lookup.
  - nra.
Qed.

Lemma authenticate_std_step (p : Tier1.Tier1Authenticator) (v : np.ndarray) (loc : loc_data) :
  Tier1.is_enrolled p = true ->
  length (Tier1.D_ref p) = length v -> length (Tier1.D_std p) = length v ->
  0 <= Tier1.alpha_std p < 1 ->
  let p' := (Tier1.authenticate p v loc).1.2 in
  length (Tier1.D_ref p') = length v
  /\ length (Tier1.D_std p') = length v
  /\ forall i d, Tier1.D_std p !! i = Some d -> 0 < d ->
       exists d', Tier1.D_std p' !! i = Some d' /\ (1 - Tier1.alpha_std p) * d <= d'.
Proof.
  intros He Hr Hd Ha p'. subst p'.
  assert (Hsame : forall i d, Tier1.D_std p !! i = Some d -> 0 < d ->
            exists d', Tier1.D_std p !! i = Some d' /\ (1 - Tier1.alpha_std p) * d <= d')
    by (intros i d Hi Hpos; exists d; split; [done|nra]).
  destruct (authenticate_cases p v loc He)
    as [[_ ->]|[(s & _ & _ & _ & ->)|[(s & _ & _ & ->)|(s & _ & _ & _ & ->)]]];
    cbn [fst snd]; try done.
  apply (update_std_step (Tier1.set_idle_count p 0) v Hr Hd Ha).
Qed.

(** X6. Through any run of Tier 1 calls on an enrolled profile (samples of
    the profile's length, a spread rate in [0,1)), a positive entry of the
    spread stays positive: one call lowers it at most by the factor
    1 - alpha_std, so after n calls it is at least (1 - alpha_std)^n times
    what it was. *)
Theorem X6_spread_stays_positive (p : Tier1.Tier1Authenticator) (loc : loc_data)
    (vs : list np.ndarray) :
  Tier1.is_enrolled p = true ->
  length (Tier1.D_std p) = length (Tier1.D_ref p) ->
  Forall (fun v => length v = length (Tier1.D_ref p)) vs ->
  0 <= Tier1.alpha_std p < 1 ->
  forall (i : nat) (d : R), Tier1.D_std p !! i = Some d -> 0 < d ->
    exists d', Tier1.D_std (authenticate_all p loc vs).1.2 !! i = Some d'
               /\ (1 - Tier1.alpha_std p) ^ length vs * d <= d'
               /\ 0 < d'.
Proof.
  intros He Hd Hall Ha. revert p loc He Hd Hall Ha.
  induction vs as [|v vs IH]; intros p loc He Hd Hall Ha i d Hi Hpos.
  - exists d. simpl. repeat split; try done. lra.
  - rewrite authenticate_all_cons. cbv zeta. cbn [fst snd].
    inversion Hall as [|? ? Hv Hall']; subst.
    assert (Hdv : length (Tier1.D_std p) = length v) by lia.
    destruct (authenticate_std_step p v loc He (eq_sym Hv) Hdv Ha) as (Hr1 & Hd1 & Hstep).
    destruct (authenticate_fields p v loc) as (_ & _ & Has & He1 & _).
    destruct (Hstep i d Hi Hpos) as (d1 & Hi1 & Hle1).
    assert (Hpos1 : 0 < d1) by nra.
    set (p1 := (Tier1.authenticate p v loc).1.2) in *.
    destruct (IH p1 (Tier1.authenticate p v loc).2) with (i := i) (d := d1)
      as (d' & Hi' & Hle' & Hpos'); try done.
    + now rewrite He1.
    + lia.
    + rewrite Hr1. eapply Forall_impl; [exact Hall'|]. intros w Hw. simpl in *. lia.
    + now rewrite Has.
    + exists d'. split; [exact Hi'|]. split; [|exact Hpos'].
      rewrite Has in Hle'. simpl.
      assert (Hp : 0 <= (1 - Tier1.alpha_std p) ^ length vs) by (apply pow_le; lra).
      nra.
Qed.

Lemma X6_witness :
  exists d', Tier1.D_std (authenticate_all profile_ones loc_still [ones; ones]).1.2 !! 0%nat
             = Some d'
             /\ (1 - 0.02) ^ 2 * 1e-2 <= d' /\ 0 < d'.
Proof.
  apply (X6_spread_stays_positive profile_ones loc_still [ones; ones] eq_refl eq_refl).
  - do 2 (constructor; [reflexivity|]). constructor.
  - simpl. lra.
  - reflexivity.
  - lra.
Defined.

(** ** The rule flags *)

(** X7. The rule checks return at most five flags, without repetition.  The
    login-distance flag is there exactly when the distance exceeds 10 km, the
    speed flag exactly when the speed exceeds 120 km/h, and a designated
    feature (0 accuracy, 1 flight time, 5 error rate) that is zero or
    negative never raises its flag, whatever its z-score. *)
Theorem X7_rule_flags (p : Tier1.Tier1Authenticator) (v : np.ndarray) (loc : loc_data) :
  let flags := (Tier1._dynamic_rule_checks p v loc).1.1 in
  (length flags <= 5)%nat
  /\ NoDup flags
  /\ ("Unusual login distance (>10km)"%string ∈ flags <-> Tier1.dist_login_of loc > 10)
  /\ ("Abnormal session speed"%string ∈ flags <-> Tier1.speed_kmh_of loc > 120)
  /\ (np.item v 0 <= 0 -> "Suspicious accuracy deviation"%string ∉ flags)
  /\ (np.item v 1 <= 0 -> "Suspicious flight time deviation"%string ∉ flags)
  /\ (np.item v 5 <= 0 -> "Suspicious error rate deviation"%string ∉ flags).
Proof.
  intros flags. subst flags. rewrite rule_flags_eq.
  destruct (decide (Tier1.dist_login_of loc > 10));
  destruct (decide (Tier1.speed_kmh_of loc > 120));
  destruct (decide (np.item v 0 > 0 /\ _));
  destruct (decide (np.item v 1 > 0 /\ _));
  destruct (decide (np.item v 5 > 0 /\ _));
  cbn [app length];
  (split; [lia|]);
  (split; [apply (bool_decide_unpack _); vm_compute; reflexivity|]);
  rewrite ?elem_of_cons, ?elem_of_nil;
  repeat split; intros; try lra; try tauto; try intro;
  repeat match goal with
         | H : _ \/ _ |- _ => destruct H
         | H : @eq string _ _ |- _ => discriminate H
         | H : False |- _ => destruct H
         | H : _ /\ _ |- _ => destruct H
         end; try lra; try tauto.
Qed.

(** ** The age factor *)

Lemma z_scores_ext (p q : Tier1.Tier1Authenticator) (v : np.ndarray) :
  Tier1.D_ref p = Tier1.D_ref q -> Tier1.D_std p = Tier1.D_std q ->
  Tier1.z_scores_of p v = Tier1.z_scores_of q v.
Proof. intros H1 H2. unfold Tier1.z_scores_of. now rewrite H1, H2. Qed.

Lemma flags_ext (p q : Tier1.Tier1Authenticator) (v : np.ndarray) (loc : loc_data) :
  Tier1.D_ref p = Tier1.D_ref q -> Tier1.D_std p = Tier1.D_std q ->
  (Tier1._dynamic_rule_checks p v loc).1.1 = (Tier1._dynamic_rule_checks q v loc).1.1.
Proof. intros H1 H2. now rewrite !rule_flags_eq, (z_scores_ext p q v H1 H2). Qed.

Lemma decision_pass_inv (p : Tier1.Tier1Authenticator) (v : np.ndarray) (loc : loc_data) :
  Tier1.is_enrolled p = true ->
  (Tier1.authenticate p v loc).1.1 !! "decision" = Some (PyStr "PASS") ->
  exists s, (Tier1._compute_anomaly_score p v).1 = Some s /\ s < 0.8
            /\ (Tier1._dynamic_rule_checks p v loc).1.1 = [].
Proof.
  intros He.
  destruct (authenticate_cases p v loc He)
    as [[_ ->]|[(s & Hs & Hlt & Hf & ->)|[(s & _ & _ & ->)|(s & _ & _ & _ & ->)]]];
    cbn [fst snd]; rewrite result_decision; intros [= ].
  now exists s.
Qed.

(** X8. The age factor raises the score: with the same reference and spread,
    a profile aged 60 or more gets 1.15 times the score of a profile aged
    under 60, so whenever the older profile passes Tier 1 on a sample the
    younger one passes on it too. *)
Theorem X8_age_factor (p q : Tier1.Tier1Authenticator) (v : np.ndarray) (loc : loc_data) :
  Tier1.is_enrolled p = true -> Tier1.is_enrolled q = true ->
  Tier1.D_ref p = Tier1.D_ref q -> Tier1.D_std p = Tier1.D_std q ->
  (Tier1.age p < 60)%Z -> (60 <= Tier1.age q)%Z ->
  (forall s, (Tier1._compute_anomaly_score p v).1 = Some s ->
             (Tier1._compute_anomaly_score q v).1 = Some (s * 1.15))
  /\ ((Tier1.authenticate q v loc).1.1 !! "decision" = Some (PyStr "PASS") ->
      (Tier1.authenticate p v loc).1.1 !! "decision" = Some (PyStr "PASS")).
Proof.
  intros Hep Heq Hr Hd Hp Hq.
  assert (Hsc : forall s, (Tier1._compute_anomaly_score p v).1 = Some s ->
                          (Tier1._compute_anomaly_score q v).1 = Some (s * 1.15)).
  { intros s. unfold Tier1._compute_anomaly_score.
    destruct (decide (np.count_nonzero v < 4)%nat); [done|]. cbv zeta.
    rewrite (z_scores_ext p q v Hr Hd).
    rewrite (decide_False (P := (Tier1.age p >= 60)%Z)) by lia.
    rewrite (decide_True (P := (Tier1.age q >= 60)%Z)) by lia.
    cbn [fst]. now intros [= <-]. }
  split; [exact Hsc|].
  intros Hpass. destruct (decision_pass_inv q v loc Heq Hpass) as (sq & Hsq & Hlt & Hf).
  destruct (Tier1._compute_anomaly_score p v).1 as [sp|] eqn:Hsp.
  - rewrite (Hsc sp eq_refl) in Hsq. injection Hsq as <-.
    pose proof (score_nonneg p v sp Hsp) as Hnn.
    rewrite (authenticate_pass p v loc sp Hep Hsp).
    + apply result_decision.
    + lra.
    + now rewrite (flags_ext p q v loc Hr Hd).
  - apply (proj1 (score_none_iff p v)) in Hsp.
    apply (proj2 (score_none_iff q v)) in Hsp. rewrite Hsp in Hsq. discriminate.
Qed.

Lemma X8_witness :
  (Tier1._compute_anomaly_score profile_senior sample_dev).1 = Some (z0 / 10 * 1.15).
Proof.
  assert (H1 : (Tier1.age profile_ones < 60)%Z) by (simpl; lia).
  assert (H2 : (60 <= Tier1.age profile_senior)%Z) by (simpl; lia).
  destruct (X8_age_factor profile_ones profile_senior sample_dev loc_still
              eq_refl eq_refl eq_refl eq_refl H1 H2) as [H _].
  apply H, score_dev.
Defined.

(** ** Replaying the reference *)






(** ** The history deque of Tier 3 *)

Lemma deque_append_length (h : list np.ndarray) (x : np.ndarray) :
  (length (deque.append h x) <= 20)%nat.
Proof.
  unfold deque.append, deque.trim, deque.maxlen.
  rewrite length_drop, length_app. simpl. lia.
Qed.

Lemma deque_append_room (h : list np.ndarray) (x : np.ndarray) :
  (length h < 20)%nat -> deque.append h x = h ++ [x].
Proof.
  intros H. unfold deque.append, deque.trim, deque.maxlen.
  rewrite length_app. simpl.
  replace (length h + 1 - 20)%nat with 0%nat by lia. reflexivity.
Qed.

Lemma deque_append_full (h : list np.ndarray) (x : np.ndarray) :
  length h = 20%nat -> deque.append h x = drop 1 h ++ [x].
Proof.
  intros H. unfold deque.append, deque.trim, deque.maxlen.
  rewrite length_app. simpl.
  replace (length h + 1 - 20)%nat with 1%nat by lia.
  rewrite drop_app_le by lia. reflexivity.
Qed.

Lemma deque_append_last (h : list np.ndarray) (x : np.ndarray) :
  last (deque.append h x) = Some x.
Proof.
  unfold deque.append, deque.trim, deque.maxlen.
  rewrite length_app. simpl.
  rewrite drop_app_le by lia. apply last_snoc.
Qed.

(** X10. Tier 3 appends the sample to the stored history of the user and
    keeps at most 20 entries, dropping the oldest one when 20 are stored; for
    a user without stored history nothing is stored; the histories of other
    users, the graph index and the models are left as they were. *)
Theorem X10_history_fifo (t : Tier3.Tier3Authenticator) (uid : string)
    (v_test v_ref : np.ndarray) :
  let t' := (Tier3.authenticate t uid v_test v_ref).2 in
  (forall h, Tier3.user_history t !! uid = Some h ->
     exists h', Tier3.user_history t' !! uid = Some h'
       /\ (length h' <= 20)%nat
       /\ last h' = Some v_test
       /\ ((length h < 20)%nat -> h' = h ++ [v_test])
       /\ (length h = 20%nat -> h' = drop 1 h ++ [v_test]))
  /\ (Tier3.user_history t !! uid = None -> t' = t)
  /\ (forall u, u <> uid -> Tier3.user_history t' !! u = Tier3.user_history t !! u)
  /\ Tier3.user_id_to_idx t' = Tier3.user_id_to_idx t
  /\ Tier3.gnn_model t' = Tier3.gnn_model t
  /\ Tier3.drift_tracker t' = Tier3.drift_tracker t
  /\ Tier3.similarity_engine t' = Tier3.similarity_engine t.
Proof.
  intros t'. subst t'. unfold Tier3.authenticate. cbv zeta. cbn [snd].
  destruct (Tier3.user_history t !! uid) as [h0|] eqn:E.
  - cbn [Tier3.user_history Tier3.set_user_history Tier3.user_id_to_idx Tier3.gnn_model
         Tier3.drift_tracker Tier3.similarity_engine].
    split; [|repeat split; try done].
    + intros h [= <-]. exists (deque.append h0 v_test).
      split; [apply lookup_insert_eq|]. split; [apply deque_append_length|].
      split; [apply deque_append_last|]. split.
      * apply deque_append_room.
      * apply deque_append_full.
    + intros u Hu. now rewrite lookup_insert_ne.
  - repeat split; try done.
Qed.

(** ** The Gaussian negative log-likelihood *)

Lemma gaussian_nll_loss_nll (mu log_var y : np.ndarray) :
  gaussian_nll_loss mu log_var y = np.mean (Tier3.nll y mu log_var).
Proof.
  unfold gaussian_nll_loss, Tier3.nll, np.square. do 4 f_equal.
  apply list_fmap_ext. intros i x _. simpl. lra.
Qed.

Lemma nll_bound (y mu log_var : np.ndarray) :
  length mu = length y -> length log_var = length y ->
  length (Tier3.nll y mu log_var) = length y
  /\ 0.5 * np.sum log_var <= np.sum (Tier3.nll y mu log_var)
  /\ (y = mu -> np.sum (Tier3.nll y mu log_var) = 0.5 * np.sum log_var).
Proof.
  unfold Tier3.nll, np.scale, np.add, np.div, np.square, np.sub, np.sum.
  revert mu log_var. induction y as [|x y IH]; intros [|m mu] [|l lv] Hm Hl;
    cbn [zip_with fmap list_fmap foldr length] in *; try discriminate.
  - repeat split; try done; intros; lra.
  - destruct (IH mu lv) as (H1 & H2 & H3); [lia|lia|].
    assert (He : 0 < exp l) by apply exp_pos.
    assert (Hq : 0 <= (x - m) * (x - m) / exp l).
    { apply Rmult_le_pos; [apply (Rle_0_sqr (x - m))|].
      apply Rlt_le, Rinv_0_lt_compat, He. }
    split; [now rewrite H1|]. split; [lra|].
    intros [= -> ->]. rewrite H3 by done.
    replace ((m - m) * (m - m) / exp l) with 0; [lra|].
    unfold Rdiv. ring.
Qed.

Lemma nll_mean_bound (mu log_var y : np.ndarray) :
  length mu = length y -> length log_var = length y ->
  0.5 * np.mean log_var <= gaussian_nll_loss mu log_var y.
Proof.
  intros Hm Hl. rewrite gaussian_nll_loss_nll. unfold np.mean.
  destruct (nll_bound y mu log_var Hm Hl) as (H1 & H2 & _).
  rewrite H1, Hl.
  assert (Hn : 0 <= / INR (length y)).
  { destruct (length y) as [|k].
    - simpl. rewrite Rinv_0. lra.
    - apply Rlt_le, Rinv_0_lt_compat, lt_0_INR. lia. }
  unfold Rdiv. nra.
Qed.

(** X11. The Gaussian negative log-likelihood loss of a target under a
    predicted mean and log-variance of the target's length is at least half
    the mean of the log-variances, and is exactly that when the predicted
    mean is the target. *)
Theorem X11_gaussian_nll_lower_bound (mu log_var y : np.ndarray) :
  length mu = length y -> length log_var = length y ->
  0.5 * np.mean log_var <= gaussian_nll_loss mu log_var y
  /\ gaussian_nll_loss y log_var y = 0.5 * np.mean log_var.
Proof.
  intros Hm Hl. split; [now apply nll_mean_bound|].
  rewrite gaussian_nll_loss_nll. unfold np.mean.
  destruct (nll_bound y y log_var eq_refl Hl) as (H1 & _ & H3).
  rewrite H1, Hl, (H3 eq_refl). unfold Rdiv. ring.
Qed.

Lemma X11_witness :
  0.5 * np.mean (np.zeros 10) <= gaussian_nll_loss ones (np.zeros 10) sample_dev.
Proof.
  apply (X11_gaussian_nll_lower_bound ones (np.zeros 10) sample_dev); reflexivity.
Defined.

(** X12. The drift signal of Tier 3 never exceeds 1.  With 6 or more stored
    entries it is the Gaussian negative log-likelihood loss of the sample
    under the tracker's prediction, divided by 5 and capped at 1; it is then
    non-negative when the predicted log-variances are (for predictions of
    the sample's length). *)
Theorem X12_drift_range (t : Tier3.Tier3Authenticator) (uid : string) (v_test : np.ndarray) :
  Tier3.drift_anomaly_of t uid v_test <= 1
  /\ (forall h, Tier3.user_history t !! uid = Some h -> (6 <= length h)%nat ->
        let '(mu, log_var) := Tier3.drift_tracker t h in
        Tier3.drift_anomaly_of t uid v_test
          = Rmin (gaussian_nll_loss mu log_var v_test / 5) 1
        /\ (length mu = length v_test -> length log_var = length v_test ->
            Forall (fun l => 0 <= l) log_var ->
            0 <= Tier3.drift_anomaly_of t uid v_test)).
Proof.
  split.
  - unfold Tier3.drift_anomaly_of.
    destruct (Tier3.user_history t !! uid) as [h|]; [|lra].
    destruct (decide _); [|lra].
    destruct (Tier3.drift_tracker t h) as [mu lv].
    replace 1.0 with 1 by lra. apply Rmin_r.
  - intros h Hh Hl. rewrite (drift_long t uid v_test h Hh Hl).
    destruct (Tier3.drift_tracker t h) as [mu lv]. cbn [fst snd].
    rewrite <- gaussian_nll_loss_nll.
    replace 5.0 with 5 by lra. replace 1.0 with 1 by lra.
    split; [done|]. intros Hm Hlv Hpos.
    pose proof (nll_mean_bound mu lv v_test Hm Hlv) as Hb.
    pose proof (mean_nonneg lv Hpos) as Hmn.
    apply Rmin_glb; lra.
Qed.

Lemma X12_witness :
  Tier3.drift_anomaly_of t3_double "alice" ones
  = Rmin (gaussian_nll_loss ones (np.zeros 10) ones / 5) 1
  /\ 0 <= Tier3.drift_anomaly_of t3_double "alice" ones.
Proof.
  destruct (X12_drift_range t3_double "alice" ones) as [_ H].
  assert (Hl : (6 <= length (replicate 6 ones))%nat) by (simpl; lia).
  pose proof (H (replicate 6 ones) eq_refl Hl) as H'.
  change (Tier3.drift_tracker t3_double (replicate 6 ones)) with (ones, np.zeros 10) in H'.
  destruct H' as [H1 H2]. split; [exact H1|].
  apply H2; [reflexivity|reflexivity|]. apply Forall_replicate. lra.
Defined.

(** ** Enrolment through the orchestrator *)

Lemma deque_make_length (l : list np.ndarray) :
  length (deque.make l) = Nat.min (length l) 20.
Proof. unfold deque.make, deque.trim, deque.maxlen. rewrite length_drop. lia. Qed.

(** X13. [enroll_user] creates a profile once: for an id that already has a
    profile it changes nothing, whatever the data, so enrolling twice is
    enrolling once; for a new id it stores the Tier 1 authenticator built
    from the samples and the newest 20 entries at most of the history, and
    leaves the profiles and histories of the other ids as they were. *)
Theorem X13_enroll_user_once (ua : Orchestrator.UnifiedAuthenticator) (uid : string)
    (a a' : Z) (d d' : Orchestrator.enrollment_data) :
  (forall p, Orchestrator.user_profiles ua !! uid = Some p ->
             Orchestrator.enroll_user ua uid a d = ua)
  /\ Orchestrator.enroll_user (Orchestrator.enroll_user ua uid a d) uid a' d'
     = Orchestrator.enroll_user ua uid a d
  /\ (Orchestrator.user_profiles ua !! uid = None ->
      let ua1 := Orchestrator.enroll_user ua uid a d in
      Orchestrator.user_profiles ua1 !! uid
        = Some (Tier1.enroll (Tier1.init a) (Orchestrator.t1_samples d))
      /\ (exists h, Tier3.user_history (Orchestrator.t3 ua1) !! uid = Some h
            /\ length h = Nat.min (length (Orchestrator.t3_history d)) 20
            /\ h = drop (length (Orchestrator.t3_history d) - 20) (Orchestrator.t3_history d))
      /\ forall u, u <> uid ->
           Orchestrator.user_profiles ua1 !! u = Orchestrator.user_profiles ua !! u
           /\ Tier3.user_history (Orchestrator.t3 ua1) !! u
              = Tier3.user_history (Orchestrator.t3 ua) !! u).
Proof.
  assert (Hknown : forall (x : Orchestrator.UnifiedAuthenticator) b e p,
            Orchestrator.user_profiles x !! uid = Some p ->
            Orchestrator.enroll_user x uid b e = x).
  { intros x b e p H. unfold Orchestrator.enroll_user. now rewrite H. }
  split; [intros p; apply Hknown|]. split.
  - destruct (Orchestrator.user_profiles ua !! uid) as [p|] eqn:E.
    + rewrite (Hknown ua a d p E). now apply Hknown with p.
    + eapply Hknown. unfold Orchestrator.enroll_user. rewrite E.
      cbn [Orchestrator.user_profiles]. apply lookup_insert_eq.
  - intros E ua1. subst ua1. unfold Orchestrator.enroll_user. rewrite E.
    cbn [Orchestrator.user_profiles Orchestrator.t3 Tier3.enroll_user_history
         Tier3.user_history Tier3.set_user_history].
    split; [apply lookup_insert_eq|]. split.
    + eexists. split; [apply lookup_insert_eq|]. split; [apply deque_make_length|done].
    + intros u Hu. now rewrite !lookup_insert_ne.
Qed.

(** ** What a session changes *)

Lemma str_in_error :
  str_in "PASS" "ERROR: User is not enrolled." || str_in "SKIP" "ERROR: User is not enrolled."
  = false
  /\ str_in "ESCALATE TO T2" "ERROR: User is not enrolled." = false
  /\ str_in "ESCALATE TO T3" "ERROR: User is not enrolled." = false.
Proof. repeat split. Qed.

Lemma str_in_t3 :
  str_in "PASS" "ESCALATE TO T3 (High Anomaly)"
  || str_in "SKIP" "ESCALATE TO T3 (High Anomaly)" = false
  /\ str_in "ESCALATE TO T2" "ESCALATE TO T3 (High Anomaly)" = false
  /\ str_in "ESCALATE TO T3" "ESCALATE TO T3 (High Anomaly)" = true.
Proof. repeat split. Qed.

Lemma t3_response_tier (t : Tier3.Tier3Authenticator) (uid : string) (v v_ref : np.ndarray) :
  ((Tier3.authenticate t uid v v_ref).1 ∪ {["tier" := PyStr "T3"]}) !! "tier"
  = Some (PyStr "T3").
Proof.
  rewrite t3_result. cbv zeta.
  apply lookup_union_Some_raw. right. split; [|apply lookup_singleton_eq].
  rewrite !lookup_insert_ne by done. apply lookup_empty.
Qed.

Lemma run_t3_eq (ua : Orchestrator.UnifiedAuthenticator) (uid : string)
    (v v_ref : np.ndarray) :
  Orchestrator.run_t3 ua uid v v_ref =
    ((Tier3.authenticate (Orchestrator.t3 ua) uid v v_ref).1 ∪ {["tier" := PyStr "T3"]},
     Orchestrator.set_t3 ua (Tier3.authenticate (Orchestrator.t3 ua) uid v v_ref).2).
Proof.
  unfold Orchestrator.run_t3. now destruct (Tier3.authenticate _ _ _ _).
Qed.

(** The four ways a session ends. *)
Lemma session_cases (ua : Orchestrator.UnifiedAuthenticator)
    (req : Orchestrator.request_data) (p : Tier1.Tier1Authenticator) :
  Orchestrator.user_profiles (Orchestrator.ensure_enrolled ua req)
    !! Orchestrator.user_id req = Some p ->
  let ua1 := Orchestrator.ensure_enrolled ua req in
  let uid := Orchestrator.user_id req in
  let v := Orchestrator.behavioral_vector req in
  let t1 := Tier1.authenticate p v (Orchestrator.location_info req) in
  let ua2 := Orchestrator.set_profile ua1 uid t1.1.2 in
  let out := Orchestrator.authenticate_session ua req in
  (exists d, out = (<["tier" := PyStr "T1"]> (<["decision" := PyStr d]> ∅), ua2, t1.2))
  \/ (exists s, out = (<["tier" := PyStr "T2"]> (<["decision" := PyStr "PASS"]>
                         (<["score" := PyFloat s]> ∅)), ua2, t1.2))
  \/ out = ((Tier3.authenticate (Orchestrator.t3 ua1) uid v (Tier1.D_ref p)).1
              ∪ {["tier" := PyStr "T3"]},
            Orchestrator.set_t3 ua2
              (Tier3.authenticate (Orchestrator.t3 ua1) uid v (Tier1.D_ref p)).2,
            t1.2)
  \/ out = (<["tier" := PyStr "System"]> (<["decision" := PyStr "UNKNOWN_STATE"]> ∅),
            ua2, t1.2).
Proof.
  intros Hp ua1 uid v t1 ua2 out. subst out.
  rewrite (session_unfold ua req p Hp). cbv zeta. fold ua1 uid v t1 ua2.
  destruct (str_in "PASS" _ || str_in "SKIP" _); [left; eauto|].
  destruct (Orchestrator.run_t2 _ _ _ _ _ _ _) as [s|d]; [right; left; eauto|].
  destruct (str_in "ESCALATE TO T3" d); [|now right; right; right].
  right. right. left. now rewrite run_t3_eq.
Qed.

Lemma ensure_enrolled_frame (ua : Orchestrator.UnifiedAuthenticator)
    (req : Orchestrator.request_data) (u : string) :
  u <> Orchestrator.user_id req ->
  let ua1 := Orchestrator.ensure_enrolled ua req in
  Orchestrator.user_profiles ua1 !! u = Orchestrator.user_profiles ua !! u
  /\ Tier3.user_history (Orchestrator.t3 ua1) !! u
     = Tier3.user_history (Orchestrator.t3 ua) !! u.
Proof.
  intros Hu ua1. subst ua1.
  destruct (Orchestrator.user_profiles ua !! Orchestrator.user_id req) as [p|] eqn:E.
  - now rewrite (ensure_enrolled_known ua req p E).
  - rewrite (ensure_enrolled_fresh ua req E). cbv zeta.
    cbn [Orchestrator.user_profiles Orchestrator.t3 Tier3.enroll_user_history
         Tier3.user_history Tier3.set_user_history].
    now rewrite !lookup_insert_ne.
Qed.

Lemma ensure_enrolled_models (ua : Orchestrator.UnifiedAuthenticator)
    (req : Orchestrator.request_data) :
  Orchestrator.scaler (Orchestrator.ensure_enrolled ua req) = Orchestrator.scaler ua
  /\ Orchestrator.t2_model (Orchestrator.ensure_enrolled ua req) = Orchestrator.t2_model ua.
Proof.
  unfold Orchestrator.ensure_enrolled, Orchestrator.enroll_user.
  now destruct (Orchestrator.user_profiles ua !! Orchestrator.user_id req).
Qed.

Lemma t3_authenticate_frame (t : Tier3.Tier3Authenticator) (uid u : string)
    (v v_ref : np.ndarray) :
  u <> uid ->
  Tier3.user_history (Tier3.authenticate t uid v v_ref).2 !! u = Tier3.user_history t !! u.
Proof.
  intros Hu. unfold Tier3.authenticate. cbv zeta. cbn [snd].
  destruct (Tier3.user_history t !! uid); [|done].
  cbn [Tier3.user_history Tier3.set_user_history]. now rewrite lookup_insert_ne.
Qed.

(** X14. A session touches only the user it is for: the profile and the
    stored history of every other user id are as before, and the scaler and
    the Tier 2 model of the orchestrator are never replaced. *)
Theorem X14_session_frame (ua : Orchestrator.UnifiedAuthenticator)
    (req : Orchestrator.request_data) :
  let ua' := (Orchestrator.authenticate_session ua req).1.2 in
  (forall u, u <> Orchestrator.user_id req ->
     Orchestrator.user_profiles ua' !! u = Orchestrator.user_profiles ua !! u
     /\ Tier3.user_history (Orchestrator.t3 ua') !! u
        = Tier3.user_history (Orchestrator.t3 ua) !! u)
  /\ Orchestrator.scaler ua' = Orchestrator.scaler ua
  /\ Orchestrator.t2_model ua' = Orchestrator.t2_model ua.
Proof.
  intros ua'. subst ua'.
  destruct (ensure_enrolled_has_profile ua req) as [p Hp].
  destruct (ensure_enrolled_models ua req) as [Hsc Ht2].
  destruct (session_cases ua req p Hp) as [[d ->]|[[s ->]|[->| ->]]];
    cbn [fst snd Orchestrator.scaler Orchestrator.t2_model Orchestrator.set_profile
         Orchestrator.set_t3 Orchestrator.user_profiles Orchestrator.t3];
    (split; [|done]); intros u Hu;
    destruct (ensure_enrolled_frame ua req u Hu) as [H1 H2];
    rewrite ?lookup_insert_ne by done;
    rewrite ?t3_authenticate_frame by done; done.
Qed.

(** X15. Only a request that is answered at Tier 3 reaches the Tier 3
    state: when the response's tier is not T3, the Tier 3 authenticator, its
    stored histories included, is the one left by the enrolment step. *)
Theorem X15_history_grows_only_at_tier3 (ua : Orchestrator.UnifiedAuthenticator)
    (req : Orchestrator.request_data) :
  let out := Orchestrator.authenticate_session ua req in
  out.1.1 !! "tier" <> Some (PyStr "T3") ->
  Orchestrator.t3 out.1.2 = Orchestrator.t3 (Orchestrator.ensure_enrolled ua req).
Proof.
  intros out. subst out.
  destruct (ensure_enrolled_has_profile ua req) as [p Hp].
  destruct (session_cases ua req p Hp) as [[d ->]|[[s ->]|[->| ->]]];
    cbn [fst snd]; try done.
Qed.

Lemma X15_witness :
  Orchestrator.t3 (Orchestrator.authenticate_session ua_alice req_dev).1.2
  = Orchestrator.t3 (Orchestrator.ensure_enrolled ua_alice req_dev).
Proof.
  apply (X15_history_grows_only_at_tier3 ua_alice req_dev).
  rewrite session_dev. rewrite lookup_insert_eq. discriminate.
Defined.

(** ** Routing *)

Lemma session_t1_t3 (ua : Orchestrator.UnifiedAuthenticator)
    (req : Orchestrator.request_data) (p : Tier1.Tier1Authenticator) :
  let ua1 := Orchestrator.ensure_enrolled ua req in
  let uid := Orchestrator.user_id req in
  let v := Orchestrator.behavioral_vector req in
  let t1 := Tier1.authenticate p v (Orchestrator.location_info req) in
  Orchestrator.user_profiles ua1 !! uid = Some p ->
  t1.1.1 !! "decision" = Some (PyStr "ESCALATE TO T3 (High Anomaly)") ->
  Orchestrator.authenticate_session ua req =
    ((Tier3.authenticate (Orchestrator.t3 ua1) uid v (Tier1.D_ref p)).1
       ∪ {["tier" := PyStr "T3"]},
     Orchestrator.set_t3 (Orchestrator.set_profile ua1 uid t1.1.2)
       (Tier3.authenticate (Orchestrator.t3 ua1) uid v (Tier1.D_ref p)).2,
     t1.2).
Proof.
  intros ua1 uid v t1 Hp Hd.
  rewrite (session_unfold ua req p Hp). cbv zeta. fold ua1 uid v t1.
  rewrite (get_str_lookup _ _ _ Hd).
  destruct str_in_t3 as (-> & H2 & H3).
  unfold Orchestrator.run_t2. rewrite H2, H3. now rewrite run_t3_eq.
Qed.

Lemma ensure_enrolled_swap (ua : Orchestrator.UnifiedAuthenticator)
    (req : Orchestrator.request_data) (f : np.ndarray -> np.ndarray)
    (g : np.ndarray -> np.ndarray -> np.ndarray -> R) :
  let ub := Orchestrator.mk (Orchestrator.user_profiles ua) f g (Orchestrator.t3 ua) in
  Orchestrator.user_profiles (Orchestrator.ensure_enrolled ub req)
    = Orchestrator.user_profiles (Orchestrator.ensure_enrolled ua req)
  /\ Orchestrator.t3 (Orchestrator.ensure_enrolled ub req)
     = Orchestrator.t3 (Orchestrator.ensure_enrolled ua req).
Proof.
  intros ub. unfold Orchestrator.ensure_enrolled, Orchestrator.enroll_user.
  change (Orchestrator.user_profiles ub) with (Orchestrator.user_profiles ua).
  now destruct (Orchestrator.user_profiles ua !! Orchestrator.user_id req).
Qed.

(** X16. A request that Tier 1 escalates to Tier 3 bypasses Tier 2: the
    response is the Tier 3 result with tier T3, whatever the Tier 2 model and
    the scaler are, and the sample is appended to the user's history. *)
Theorem X16_severe_anomaly_bypasses_tier2 (ua : Orchestrator.UnifiedAuthenticator)
    (req : Orchestrator.request_data) (p : Tier1.Tier1Authenticator) :
  let ua1 := Orchestrator.ensure_enrolled ua req in
  let uid := Orchestrator.user_id req in
  let v := Orchestrator.behavioral_vector req in
  let t1 := Tier1.authenticate p v (Orchestrator.location_info req) in
  Orchestrator.user_profiles ua1 !! uid = Some p ->
  well_shaped p v ->
  t1.1.1 !! "decision" = Some (PyStr "ESCALATE TO T3 (High Anomaly)") ->
  let out := Orchestrator.authenticate_session ua req in
  out.1.1 = (Tier3.authenticate (Orchestrator.t3 ua1) uid v (Tier1.D_ref p)).1
            ∪ {["tier" := PyStr "T3"]}
  /\ out.1.1 !! "tier" = Some (PyStr "T3")
  /\ (forall f g,
        (Orchestrator.authenticate_session
           (Orchestrator.mk (Orchestrator.user_profiles ua) f g (Orchestrator.t3 ua)) req).1.1
        = out.1.1)
  /\ (forall h, Tier3.user_history (Orchestrator.t3 ua1) !! uid = Some h ->
        Tier3.user_history (Orchestrator.t3 out.1.2) !! uid = Some (deque.append h v)).
Proof.
  intros ua1 uid v t1 Hp _ Hd out. subst out.
  rewrite (session_t1_t3 ua req p Hp Hd). cbn [fst snd]. fold ua1 uid v.
  split; [done|]. split; [apply t3_response_tier|]. split.
  - intros f g.
    destruct (ensure_enrolled_swap ua req f g) as [Hsp Hst].
    pose proof Hp as Hp'. unfold ua1 in Hp'. rewrite <- Hsp in Hp'.
    rewrite (session_t1_t3 _ req p Hp' Hd). cbn [fst]. now rewrite Hst.
  - intros h Hh. cbn [Orchestrator.t3 Orchestrator.set_t3].
    unfold Tier3.authenticate. cbv zeta. cbn [snd]. rewrite Hh.
    cbn [Tier3.user_history Tier3.set_user_history]. apply lookup_insert_eq.
Qed.

Lemma z_twos : Tier1.z_scores_of profile_ones sample_twos = replicate 10 (1 / (1e-2 + 1e-8)).
Proof.
  cbv [Tier1.z_scores_of np.abs np.div np.sub np.adds fmap list_fmap zip_with
       Tier1.D_ref Tier1.D_std profile_ones sample_twos ones replicate].
  vec_eq.
Qed.

Lemma score_twos :
  (Tier1._compute_anomaly_score profile_ones sample_twos).1 = Some (1 / (1e-2 + 1e-8)).
Proof.
  unfold Tier1._compute_anomaly_score.
  rewrite decide_False.
  - cbv zeta. rewrite decide_False by (simpl; lia). simpl. f_equal.
    rewrite z_twos. unfold np.mean. cbv [np.sum foldr replicate length].
    replace (INR 10) with 10 by (simpl; lra). lra.
  - unfold sample_twos. rewrite count_nonzero_all.
    + rewrite length_replicate. lia.
    + apply Forall_replicate. lra.
Qed.

Lemma t1_twos_decision :
  (Tier1.authenticate profile_ones sample_twos loc_still).1.1 !! "decision"
  = Some (PyStr "ESCALATE TO T3 (High Anomaly)").
Proof.
  rewrite (authenticate_t3 profile_ones sample_twos loc_still _ eq_refl score_twos).
  - apply result_decision.
  - left. lra.
Qed.

Lemma X16_witness :
  (Orchestrator.authenticate_session ua_alice req_twos).1.1 !! "tier" = Some (PyStr "T3").
Proof.
  assert (Hw : well_shaped profile_ones sample_twos) by (repeat split; simpl; lia).
  destruct (X16_severe_anomaly_bypasses_tier2 ua_alice req_twos profile_ones
              eq_refl Hw t1_twos_decision) as (_ & H & _).
  exact H.
Defined.

(** X17. Enrolling a new id with fewer than 5 Tier 1 samples locks it: the
    stored authenticator is not enrolled, every session for that id is
    answered tier System, UNKNOWN_STATE, and changes neither the orchestrator
    nor the location dict, and enrolling the id again changes nothing. *)
Theorem X17_short_enrolment_locks_user (ua : Orchestrator.UnifiedAuthenticator)
    (uid : string) (a : Z) (d : Orchestrator.enrollment_data)
    (req : Orchestrator.request_data) :
  Orchestrator.user_profiles ua !! uid = None ->
  (length (Orchestrator.t1_samples d) < 5)%nat ->
  Orchestrator.user_id req = uid ->
  let ua1 := Orchestrator.enroll_user ua uid a d in
  Orchestrator.authenticate_session ua1 req =
    (<["tier" := PyStr "System"]> (<["decision" := PyStr "UNKNOWN_STATE"]> ∅),
     ua1, Orchestrator.location_info req)
  /\ forall a' d', Orchestrator.enroll_user ua1 uid a' d' = ua1.
Proof.
  intros Hf Hs Hu ua1.
  assert (Hp : Orchestrator.user_profiles ua1 !! uid = Some (Tier1.init a)).
  { subst ua1. unfold Orchestrator.enroll_user. rewrite Hf.
    cbn [Orchestrator.user_profiles]. rewrite lookup_insert_eq. f_equal.
    unfold Tier1.enroll. cbv zeta. now rewrite decide_True by lia. }
  split.
  - assert (He : Orchestrator.ensure_enrolled ua1 req = ua1).
    { apply ensure_enrolled_known with (Tier1.init a). now rewrite Hu. }
    assert (Hp' : Orchestrator.user_profiles (Orchestrator.ensure_enrolled ua1 req)
                  !! Orchestrator.user_id req = Some (Tier1.init a))
      by now rewrite He, Hu.
    rewrite (session_unfold ua1 req _ Hp'). cbv zeta.
    rewrite (authenticate_unenrolled (Tier1.init a) _ _ eq_refl). cbn [fst snd].
    rewrite (get_str_lookup _ "decision" "ERROR: User is not enrolled.")
      by apply lookup_insert_eq.
    destruct str_in_error as (-> & H2 & H3).
    unfold Orchestrator.run_t2. rewrite H2, H3, He, Hu.
    do 2 f_equal. subst ua1. unfold Orchestrator.enroll_user. rewrite Hf.
    unfold Orchestrator.set_profile.
    cbn [Orchestrator.user_profiles Orchestrator.scaler Orchestrator.t2_model Orchestrator.t3].
    rewrite insert_insert_eq. do 4 f_equal.
    unfold Tier1.enroll. cbv zeta. now rewrite decide_True by lia.
  - intros a' d'. unfold Orchestrator.enroll_user at 1. now rewrite Hp.
Qed.

Lemma X17_witness :
  (Orchestrator.authenticate_session
     (Orchestrator.enroll_user ua_fresh "carol" 30 short_data) req_carol).1.1
  = <["tier" := PyStr "System"]> (<["decision" := PyStr "UNKNOWN_STATE"]> ∅).
Proof.
  destruct (X17_short_enrolment_locks_user ua_fresh "carol" 30 short_data req_carol
              eq_refl) as [H _].
  - simpl. lia.
  - reflexivity.
  - now rewrite H.
Defined.

(** ** Sessions on enrolled profiles *)





(** ** The context vector *)

Lemma norm_nonneg (a : np.ndarray) : 0 <= np.linalg_norm a.
Proof. unfold np.linalg_norm. apply sqrt_pos. Qed.

Lemma norm_sub_same (v : np.ndarray) : np.linalg_norm (np.sub v v) = 0.
Proof.
  unfold np.linalg_norm. rewrite square_sub_same.
  rewrite sum_all_zero by (apply Forall_replicate; reflexivity). apply sqrt_0.
Qed.

(** X19. The context vector of the orchestrator has 5 entries; its distance
    entry is defined for every reference (the denominator is positive, also
    for the zero vector), is non-negative, and is 0 when the sample is the
    reference; the travel entry is 0 or 1, and 0 when the location dict has
    no [is_traveling] key; the last entry is 0. *)
Theorem X19_context_vector (v_ref v_test : np.ndarray) (a : Z) (s : R) (loc : loc_data) :
  let c := Orchestrator._create_context_vector v_ref v_test a s loc in
  length c = 5%nat
  /\ 0 < np.linalg_norm v_ref + 1e-8
  /\ 0 <= np.item c 0
  /\ (v_test = v_ref -> np.item c 0 = 0)
  /\ np.item c 1 = IZR a / 100
  /\ np.item c 2 = s
  /\ (np.item c 3 = 0 \/ np.item c 3 = 1)
  /\ (is_traveling loc = None -> np.item c 3 = 0)
  /\ np.item c 4 = 0.
Proof.
  intros c. subst c. unfold Orchestrator._create_context_vector. cbv zeta.
  pose proof (norm_nonneg v_ref) as Hn.
  pose proof (norm_nonneg (np.sub v_ref v_test)) as Hs.
  cbn [length]. unfold np.item. cbn [lookup list_lookup default]. unfold Datatypes.id.
  assert (Hpos : 0 < np.linalg_norm v_ref + 1e-8) by lra.
  repeat split; try done.
  - apply Rmult_le_pos; [done|]. apply Rlt_le, Rinv_0_lt_compat, Hpos.
  - intros ->. rewrite norm_sub_same. unfold Rdiv. ring.
  - simpl. lra.
  - destruct (is_traveling loc) as [[|]|]; simpl; [now right|now left|now left].
  - intros ->. reflexivity.
  - simpl. lra.
Qed.

(** ** The generated training contexts *)

(** X20. A context vector that the training-data generator builds (for a
    nonzero reference and draws in their ranges) has 5 entries, a
    non-negative distance, and flags that are 0 or 1; its simulated Tier 1
    score is at least 2.0 for an impostor pair and between 0.5 and
    1.5 + distance for a genuine one; the travel flag is 0 unless that score
    exceeds 2.0 and the last flag is 0 unless the age exceeds 70.  No context
    vector that the orchestrator builds from a Tier 1 result equals one
    generated for an impostor pair: its third entry is 1.5. *)
Theorem X20_training_context (v_ref v_test : np.ndarray) (age : Z) (is_impostor : bool)
    (u c_travel c_disability : R) :
  0 < np.linalg_norm v_ref ->
  (if is_impostor then 2.0 <= u <= 4.5 else 0.5 <= u <= 1.5) ->
  c_travel = 0 \/ c_travel = 1 ->
  c_disability = 0 \/ c_disability = 1 ->
  let c := Tier2Data.create_context_vector v_ref v_test age is_impostor
             u c_travel c_disability in
  length c = 5%nat
  /\ 0 <= np.item c 0
  /\ (is_impostor = true -> 2.0 <= np.item c 2)
  /\ (is_impostor = false -> 0.5 <= np.item c 2 <= 1.5 + np.item c 0)
  /\ (np.item c 3 = 0 \/ np.item c 3 = 1)
  /\ (np.item c 2 <= 2.0 -> np.item c 3 = 0)
  /\ (np.item c 4 = 0 \/ np.item c 4 = 1)
  /\ ((age <= 70)%Z -> np.item c 4 = 0)
  /\ (is_impostor = true ->
      forall (p : Tier1.Tier1Authenticator) (v w : np.ndarray) (loc : loc_data) (a : Z),
        Orchestrator.t2_context w v a (Tier1.authenticate p v loc).1.1
          (Tier1.authenticate p v loc).2 <> c).
Proof.
  intros Hn Hu Hct Hcd c. subst c. unfold Tier2Data.create_context_vector. cbv zeta.
  set (distance := np.linalg_norm (np.sub v_ref v_test) / np.linalg_norm v_ref).
  assert (Hd : 0 <= distance).
  { apply Rmult_le_pos; [apply norm_nonneg|]. apply Rlt_le, Rinv_0_lt_compat, Hn. }
  set (t1 := if is_impostor then u + distance * 2 else u + distance).
  cbn [length]. unfold np.item. cbn [lookup list_lookup default]. unfold Datatypes.id.
  split; [done|]. split; [done|]. split; [|split; [|split; [|split; [|split; [|split]]]]].
  - intros ->. subst t1. cbn. lra.
  - intros ->. subst t1. cbn. lra.
  - destruct (decide (t1 > 2.0)); [tauto|left; lra].
  - intros H. rewrite decide_False by lra. lra.
  - destruct (decide (age > 70)%Z); [tauto|left; lra].
  - intros H. rewrite decide_False by lia. lra.
  - intros -> p v w loc a. rewrite context_vector. intros H.
    injection H as _ _ H _. subst t1. cbn in H. lra.
Qed.

Lemma norm_ones : 0 < np.linalg_norm ones.
Proof.
  unfold np.linalg_norm. apply sqrt_lt_R0.
  cbv [np.sum np.square ones replicate fmap list_fmap foldr]. lra.
Qed.

Lemma X20_witness :
  2.0 <= np.item (Tier2Data.create_context_vector ones sample_twos 30 true 3 1 0) 2.
Proof.
  assert (Hu : 2.0 <= 3 <= 4.5) by lra.
  destruct (X20_training_context ones sample_twos 30 true 3 1 0 norm_ones Hu)
    as (_ & _ & H & _).
  - now right.
  - now left.
  - now apply H.
Defined.
